(** * Device registry (openstack-iot): storage backend, domain object,
      controller exception boundary and query coercion.

    A shallow embedding of

      - [iot/common/exception.py]        (exception classes, controller wrappers),
      - [iot/db/sqlalchemy/models.py]    (the [device] table),
      - [iot/db/sqlalchemy/api.py]       (the SQLAlchemy [Connection]),
      - [iot/objects/device.py]          (the [Device] domain object),
      - [iot/api/controllers/v1/base.py] (the [Query] filter),

    Python values are dynamically typed, so column and attribute values
    are a small sum type; dicts are [gmap string value]; raising is the
    [Raise] branch of a result type; the table is the list of its rows. *)

From Stdlib Require Import ZArith String Ascii List OrderedTypeEx.
From stdpp Require Import base option list gmap sets strings sorting.

Set Warnings "-clear-no-such-hyp".

Local Open Scope string_scope.
Local Open Scope Z_scope.

(** ** Python values *)

(** The values that travel through the storage layer: [None], integers
    and (unicode) strings. *)
Inductive value : Type :=
  | VNone
  | VInt (z : Z)
  | VStr (s : string).

Global Instance value_eq_dec : EqDecision value.
Proof. solve_decision. Defined.

(** Python truthiness: [None], [0] and the empty string are falsy. *)
Definition truthy (v : value) : bool :=
  match v with
  | VNone => false
  | VInt z => negb (z =? 0)
  | VStr s => negb (String.eqb s "")
  end.

(** Decimal rendering of a natural number and of an integer, as [str]
    prints them. *)
Definition digit_char (n : nat) : ascii := ascii_of_nat (48 + n).

Fixpoint nat_digits (fuel n : nat) (acc : string) : string :=
  match fuel with
  | O => acc
  | S fuel' =>
      let acc' := String (digit_char (n mod 10)) acc in
      match (n / 10)%nat with
      | O => acc'
      | q => nat_digits fuel' q acc'
      end
  end.

Definition str_nat (n : nat) : string := nat_digits (S n) n "".

Definition str_Z (z : Z) : string :=
  if z <? 0 then "-" ++ str_nat (Z.to_nat (- z)) else str_nat (Z.to_nat z).

(** [str(v)] / ["%s" % v]. *)
Definition str (v : value) : string :=
  match v with
  | VNone => "None"
  | VInt z => str_Z z
  | VStr s => s
  end.

(** ** iot.common.exception *)

Module Exception.

(** The classes deriving from [IoTException], in file order. *)
Inductive iot_class : Type :=
  | IoTException | ObjectNotFound | ObjectNotUnique | ResourceNotFound
  | ResourceExists | AuthorizationFailure | UnsupportedObjectError
  | IncompatibleObjectVersion | OrphanedObjectError | Invalid
  | InvalidUUID | InvalidIdentity | HTTPNotFound | Conflict
  | InvalidState | InvalidParameterValue | InstanceAssociated
  | InstanceNotFound | PatchError | NotAuthorized
  | OperationNotPermitted | InvalidMAC | ConfigInvalid
  | SSHConnectFailed | FileSystemNotSupported | DeviceNotFound
  | DeviceAlreadyExists | KeystoneUnauthorized | KeystoneFailure
  | CatalogNotFound.

Global Instance iot_class_eq_dec : EqDecision iot_class.
Proof. solve_decision. Defined.

(** The base class written in each [class] statement. *)
Definition parent (c : iot_class) : option iot_class :=
  match c with
  | IoTException => None
  | ObjectNotFound | ObjectNotUnique | AuthorizationFailure
  | UnsupportedObjectError | IncompatibleObjectVersion
  | OrphanedObjectError | Invalid | Conflict | NotAuthorized
  | ConfigInvalid | SSHConnectFailed | FileSystemNotSupported
  | KeystoneUnauthorized | KeystoneFailure | CatalogNotFound =>
      Some IoTException
  | ResourceNotFound => Some ObjectNotFound
  | ResourceExists => Some ObjectNotUnique
  | InvalidUUID | InvalidIdentity | InvalidParameterValue | PatchError
  | InvalidMAC => Some Invalid
  | HTTPNotFound | InstanceNotFound | DeviceNotFound =>
      Some ResourceNotFound
  | InvalidState | InstanceAssociated | DeviceAlreadyExists =>
      Some Conflict
  | OperationNotPermitted => Some NotAuthorized
  end.

(** The [code] attribute a class body assigns itself, if any. *)
Definition own_code (c : iot_class) : option Z :=
  match c with
  | IoTException => Some 500
  | ResourceNotFound => Some 404
  | ResourceExists => Some 409
  | Invalid => Some 400
  | Conflict => Some 409
  | NotAuthorized => Some 403
  | _ => None
  end.

(** Attribute lookup [excp.code] along the inheritance chain. *)
Fixpoint code_lookup (fuel : nat) (c : iot_class) : Z :=
  match own_code c with
  | Some k => k
  | None =>
      match fuel, parent c with
      | S fuel', Some p => code_lookup fuel' p
      | _, _ => 500
      end
  end.

Definition code (c : iot_class) : Z := code_lookup 4 c.

(** An exception object.  An [IoTException] instance carries its class
    and its [message]; [ClientSideError] is wsme's, with the message
    and status code given to its constructor; any other Python
    exception is kept by class name and [str]. *)
Inductive exn : Type :=
  | IoT (cls : iot_class) (message : string)
  | ClientSideError (msg : string) (status_code : Z)
  | PyExc (cls : string) (text : string).

Global Instance exn_eq_dec : EqDecision exn.
Proof. solve_decision. Defined.


(** The built-in classes that do not derive from [Exception]: what a
    clause [except Exception] does not catch. *)
Definition not_Exception : list string :=
  ["BaseException"; "SystemExit"; "KeyboardInterrupt"; "GeneratorExit"].

(** [isinstance(excp, Exception)]. *)
Definition is_Exception (e : exn) : bool :=
  match e with
  | PyExc cls _ => negb (bool_decide (cls ∈ not_Exception))
  | _ => true
  end.

(** [six.text_type(excp)]: [__unicode__] returns [self.message] for an
    [IoTException]. *)
Definition text_type (e : exn) : string :=
  match e with
  | IoT _ m => m
  | ClientSideError m _ => m
  | PyExc _ t => t
  end.

(** The exceptions raised by the storage layer, with the message that
    [IoTException.__init__] builds from the class template and the
    keyword arguments. *)
Definition mkInvalidIdentity (identity : string) : exn :=
  IoT InvalidIdentity
      ("Expected an uuid or int but received " ++ identity ++ ".").

Definition mkInvalidParameterValue (err : string) : exn :=
  IoT InvalidParameterValue err.

Definition mkDeviceNotFound (device : string) : exn :=
  IoT DeviceNotFound ("Device " ++ device ++ " could not be found.").

(** [DeviceNotFound(device_id)]: the identifier is passed positionally,
    as [message]; [__init__] then leaves [self.message] at the class
    template. *)
Definition mkDeviceNotFound_positional (device_id : string) : exn :=
  IoT DeviceNotFound "Device %(device)s could not be found.".

Definition mkDeviceAlreadyExists (uuid : value) : exn :=
  IoT DeviceAlreadyExists
      ("A device with UUID " ++ str uuid ++ " already exists.").

(** Outcome of a call: a value or a raised exception. *)
Inductive result (A : Type) : Type :=
  | Ok (a : A)
  | Raise (e : exn).
Global Arguments Ok {A} a.
Global Arguments Raise {A} e.

(** Sequencing: an exception raised by the first call propagates. *)
Global Instance result_bind : MBind result := λ A B k r,
  match r with
  | Ok a => k a
  | Raise e => Raise e
  end.

Definition is_Ok {A} (r : result A) : bool :=
  match r with Ok _ => true | Raise _ => false end.

(** The class of a raised [IoTException], if that is what was raised. *)
Definition raised_class {A} (r : result A) : option iot_class :=
  match r with
  | Raise (IoT c _) => Some c
  | _ => None
  end.

(** *** The constructor of IoTException *)

(** The [message] attribute a class body assigns itself, if any. *)
Definition own_message (c : iot_class) : option string :=
  match c with
  | IoTException => Some "An unknown exception occurred."
  | ObjectNotFound => Some "The %(name)s %(id)s could not be found."
  | ObjectNotUnique => Some "The %(name)s already exists."
  | ResourceNotFound =>
      Some "The %(name)s resource %(id)s could not be found."
  | ResourceExists => Some "The %(name)s resource already exists."
  | AuthorizationFailure =>
      Some "%(client)s connection failed. %(message)s"
  | UnsupportedObjectError => Some "Unsupported object type %(objtype)s"
  | IncompatibleObjectVersion =>
      Some "Version %(objver)s of %(objname)s is not supported"
  | OrphanedObjectError =>
      Some "Cannot call %(method)s on orphaned %(objtype)s object"
  | Invalid => Some "Unacceptable parameters."
  | InvalidUUID => Some "Expected a uuid but received %(uuid)s."
  | InvalidIdentity =>
      Some "Expected an uuid or int but received %(identity)s."
  | HTTPNotFound => None
  | Conflict => Some "Conflict."
  | InvalidState => Some "Invalid resource state."
  | InvalidParameterValue => Some "%(err)s"
  | InstanceAssociated =>
      Some ("Instance %(instance_uuid)s is already associated with a node,"
            ++ " it cannot be associated with this other node %(node)s")
  | InstanceNotFound => Some "Instance %(instance)s could not be found."
  | PatchError =>
      Some "Couldn't apply patch '%(patch)s'. Reason: %(reason)s"
  | NotAuthorized => Some "Not authorized."
  | OperationNotPermitted => Some "Operation not permitted."
  | InvalidMAC => Some "Expected a MAC address but received %(mac)s."
  | ConfigInvalid => Some "Invalid configuration file. %(error_msg)s"
  | SSHConnectFailed =>
      Some "Failed to establish SSH connection to host %(host)s."
  | FileSystemNotSupported =>
      Some ("Failed to create a file system. "
            ++ "File system %(fs)s is not supported.")
  | DeviceNotFound => Some "Device %(device)s could not be found."
  | DeviceAlreadyExists =>
      Some "A device with UUID %(uuid)s already exists."
  | KeystoneUnauthorized => Some "Not authorized in Keystone."
  | KeystoneFailure => Some "Keystone failed."
  | CatalogNotFound =>
      Some ("Service type %(service_type)s with endpoint type "
            ++ "%(endpoint_type)s not found in keystone service catalog.")
  end.

(** Attribute lookup of the class attribute [message]. *)
Fixpoint message_lookup (fuel : nat) (c : iot_class) : string :=
  match own_message c with
  | Some m => m
  | None =>
      match fuel, parent c with
      | S fuel', Some p => message_lookup fuel' p
      | _, _ => "An unknown exception occurred."
      end
  end.

Definition message_template (c : iot_class) : string := message_lookup 4 c.

(** [template % kwargs] for a dict operand: text is copied, [%%] is a
    percent sign, [%(key)s] is the value under [key], looked up when the
    key has been read; a missing key is a [KeyError] carrying the key.
    The class templates use no other form: a format cut short and any
    other character after the percent sign or after the key are given as
    the [ValueError] of a format that cannot be read.  The values are
    given as they print. *)
Inductive format_state : Type :=
  | InText
  | AfterPercent
  | InKey (key : string)
  | AfterKey (v : string).

Fixpoint format_from (st : format_state) (template : string)
    (kwargs : gmap string string) : result string :=
  match template with
  | EmptyString =>
      match st with
      | InText => Ok EmptyString
      | _ => Raise (PyExc "ValueError" "incomplete format")
      end
  | String c rest =>
      match st with
      | InText =>
          if Ascii.eqb c "%" then format_from AfterPercent rest kwargs
          else s ← format_from InText rest kwargs; Ok (String c s)
      | AfterPercent =>
          if Ascii.eqb c "(" then format_from (InKey "") rest kwargs
          else if Ascii.eqb c "%"
          then s ← format_from InText rest kwargs; Ok (String c s)
          else Raise (PyExc "ValueError" "unsupported format character")
      | InKey key =>
          if Ascii.eqb c ")" then
            match kwargs !! key with
            | Some v => format_from (AfterKey v) rest kwargs
            | None => Raise (PyExc "KeyError" key)
            end
          else format_from (InKey (key ++ String c "")) rest kwargs
      | AfterKey v =>
          if Ascii.eqb c "s"
          then s ← format_from InText rest kwargs; Ok (v ++ s)
          else Raise (PyExc "ValueError" "unsupported format character")
      end
  end.

Definition format (template : string) (kwargs : gmap string string)
  : result string :=
  format_from InText template kwargs.

(** [cls(message, **kwargs)], that is [IoTException.__init__]: the
    keyword arguments get the class's [code] unless they have one; only
    when no (truthy) [message] is given is [self.message] replaced by
    the formatted template, and a format that fails is raised again only
    under [CONF.fatal_exception_format_errors]; the exception is then
    built on [self.message].  The lines written to the log on a failed
    format are not part of the result. *)
Definition IoTException_init (fatal_exception_format_errors : bool)
    (cls : iot_class) (message : option string)
    (kwargs : gmap string string) : result exn :=
  let kwargs :=
    match kwargs !! "code" with
    | Some _ => kwargs
    | None => <["code" := str (VInt (code cls))]> kwargs
    end in
  match message with
  | Some (String _ _) => Ok (IoT cls (message_template cls))
  | _ =>
      match format (message_template cls) kwargs with
      | Ok m => Ok (IoT cls m)
      | Raise e =>
          if fatal_exception_format_errors
          then Raise e
          else Ok (IoT cls (message_template cls))
      end
  end.

(** [format_message]: [self.args[0]] for a class named [..._Remote],
    [six.text_type(self)] otherwise; both are [self.message]. *)
Definition format_message (e : exn) : string := text_type e.

End Exception.

Import Exception.

(** ** iot.common.utils *)

Module Utils.

Definition is_digit (c : ascii) : bool :=
  ((48 <=? nat_of_ascii c) && (nat_of_ascii c <=? 57))%nat.

(** Lower-case hexadecimal digit. *)
Definition is_hex (c : ascii) : bool :=
  is_digit c || ((97 <=? nat_of_ascii c) && (nat_of_ascii c <=? 102))%nat.

Fixpoint all_digits (s : string) : bool :=
  match s with
  | EmptyString => true
  | String c s' => is_digit c && all_digits s'
  end.

(** A decimal numeral the way [str] prints a non-negative integer: at
    least one digit, no leading zero except for ["0"] itself. *)
Definition is_canonical_nat (s : string) : bool :=
  match s with
  | EmptyString => false
  | String c EmptyString => is_digit c
  | String c s' => is_digit c && negb (Ascii.eqb c "0") && all_digits s'
  end.

(** Modelled from the spec: [iot.common.utils.is_int_like] is not among
    the sources.  The spec calls the accepted identifiers "integer-like"
    and "integer-shaped" strings (its example is ["42"]): the strings
    that read as an integer and print back unchanged, that is an optional
    minus sign followed by a canonical numeral, ["-0"] excluded. *)
Definition is_int_like (val : string) : bool :=
  match val with
  | String "-" s' => is_canonical_nat s' && negb (String.eqb s' "0")
  | _ => is_canonical_nat val
  end.

Definition digit_val (c : ascii) : Z := Z.of_nat (nat_of_ascii c) - 48.

Fixpoint nat_of_digits (acc : Z) (s : string) : Z :=
  match s with
  | EmptyString => acc
  | String c s' => nat_of_digits (10 * acc + digit_val c) s'
  end.

(** The integer an integer-shaped string denotes. *)
Definition int_of (val : string) : Z :=
  match val with
  | String "-" s' => - nat_of_digits 0 s'
  | _ => nat_of_digits 0 val
  end.

(** [hex_group n s]: read [n] lower-case hexadecimal digits off the front
    of [s] and return the rest. *)
Fixpoint hex_group (n : nat) (s : string) : option string :=
  match n with
  | O => Some s
  | S n' =>
      match s with
      | String c s' => if is_hex c then hex_group n' s' else None
      | EmptyString => None
      end
  end.

(** Read a group of [n] hexadecimal digits followed by a hyphen. *)
Definition hex_group_dash (n : nat) (s : string) : option string :=
  match hex_group n s with
  | Some (String "-" rest) => Some rest
  | _ => None
  end.

(** Modelled from the spec: [iot.common.utils.is_uuid_like] is not among
    the sources.  The spec calls the accepted identifiers "UUID-like" and
    "UUID-shaped" strings, with the example
    ["bd9431c1-8d69-4ad3-803a-8d4a6b89fd36"]: the canonical textual form
    of a UUID, five groups of 8, 4, 4, 4 and 12 lower-case hexadecimal
    digits separated by hyphens. *)
Definition is_uuid_like (val : string) : bool :=
  match
    r1 ← hex_group_dash 8 val;
    r2 ← hex_group_dash 4 r1;
    r3 ← hex_group_dash 4 r2;
    r4 ← hex_group_dash 4 r3;
    hex_group 12 r4
  with
  | Some EmptyString => true
  | _ => false
  end.

End Utils.


(** ** iot.db.sqlalchemy.models *)

Module Models.

(** A row of the [device] table: the two columns of oslo.db's
    [TimestampMixin] and the six columns the class declares.  Before the
    INSERT the primary key of a new object is [None]. *)
Record Device : Type := mkDevice {
  created_at : value;
  updated_at : value;
  id : value;
  project_id : value;
  user_id : value;
  uuid : value;
  name : value;
  desc : value
}.

Global Instance Device_eq_dec : EqDecision Device.
Proof. solve_decision. Defined.

Definition columns : list string :=
  ["created_at"; "updated_at"; "id"; "project_id"; "user_id"; "uuid";
   "name"; "desc"].

Definition is_column (k : string) : bool := bool_decide (k ∈ columns).

(** [getattr(row, k)] for a column name. *)
Definition column (k : string) (d : Device) : option value :=
  if String.eqb k "created_at" then Some (created_at d)
  else if String.eqb k "updated_at" then Some (updated_at d)
  else if String.eqb k "id" then Some (id d)
  else if String.eqb k "project_id" then Some (project_id d)
  else if String.eqb k "user_id" then Some (user_id d)
  else if String.eqb k "uuid" then Some (uuid d)
  else if String.eqb k "name" then Some (name d)
  else if String.eqb k "desc" then Some (desc d)
  else None.

(** [Device()]: every column unset. *)
Definition blank : Device :=
  mkDevice VNone VNone VNone VNone VNone VNone VNone VNone.

(** A mapped object in memory: its column values and whatever other
    attributes were set on the instance. *)
Record instance : Type := mkInstance {
  row : Device;
  attrs : gmap string value
}.

(** Rows loaded by a query carry no extra attribute. *)
Definition loaded (d : Device) : instance := mkInstance d ∅.

(** [ModelBase.__getitem__]: [getattr(self, key)]; [None] stands for the
    [AttributeError]. *)
Definition getitem (o : instance) (key : string) : option value :=
  match column key (row o) with
  | Some v => Some v
  | None => attrs o !! key
  end.

(** The value [update] leaves in a column: the one of [values] when the
    key is present, the old one otherwise. *)
Definition pick (values : gmap string value) (k : string) (old : value)
  : value :=
  default old (values !! k).

(** The effect on the columns of
    [for k, v in values.items(): setattr(self, k, v)]. *)
Definition update_row (values : gmap string value) (d : Device) : Device :=
  {| created_at := pick values "created_at" (created_at d);
     updated_at := pick values "updated_at" (updated_at d);
     id := pick values "id" (id d);
     project_id := pick values "project_id" (project_id d);
     user_id := pick values "user_id" (user_id d);
     uuid := pick values "uuid" (uuid d);
     name := pick values "name" (name d);
     desc := pick values "desc" (desc d) |}.

(** [ModelBase.update(values)]: keys that are no column become plain
    attributes of the instance. *)
Definition update (values : gmap string value) (o : instance) : instance :=
  {| row := update_row values (row o);
     attrs := filter (λ kv, is_column kv.1 = false) values ∪ attrs o |}.

(** [IoTBase.as_dict]: the dict of the columns of the table. *)
Definition as_dict (d : Device) : gmap string value :=
  foldr (λ c m, match column c d with
                | Some v => <[c := v]> m
                | None => m
                end) ∅ columns.

(** *** JsonEncodedType *)

Section json_encoded_type.

(** A decorated column type over the Python values [J]: [isinstance v]
    tells whether [v] is of the Python type [self.type], [empty] is
    [self.type()], [type_name] is [self.type.__name__], [class_name] the
    name of the class and [type_name_of v] is [type(v).__name__];
    [dumps] and [loads] are the two functions of the [json] module. *)
Context {J : Type}.
Context (isinstance : J → bool) (empty : J).
Context (class_name type_name : string) (type_name_of : J → string).
Context (dumps : J → string) (loads : string → J).



End json_encoded_type.

End Models.

(** ** The relational backend under iot.db.sqlalchemy.api *)

Module Sql.

Import Models.

(** The table is the list of its rows. *)
Abbreviation table := (list Device).

(** Ordering of stored values (the one of SQLite, the default backend):
    NULL sorts before every integer, every integer before every text;
    integers by value, text byte-wise. *)
Definition value_compare (a b : value) : comparison :=
  match a, b with
  | VNone, VNone => Eq
  | VNone, _ => Lt
  | _, VNone => Gt
  | VInt x, VInt y => Z.compare x y
  | VInt _, VStr _ => Lt
  | VStr _, VInt _ => Gt
  | VStr s, VStr t => String.compare s t
  end.

(** The atoms of a WHERE clause, as the rows they keep: a row is kept
    only when the condition is TRUE, and a comparison with NULL is not.
    SQLAlchemy writes [column == None] as [column IS NULL], so equality
    with a parameter holds exactly for equal values. *)
Definition sql_eq (c p : value) : bool := bool_decide (c = p).

Definition sql_gt (c p : value) : bool :=
  match c, p with
  | VNone, _ | _, VNone => false
  | _, _ => bool_decide (value_compare c p = Gt)
  end.

Definition sql_lt (c p : value) : bool :=
  match c, p with
  | VNone, _ | _, VNone => false
  | _, _ => bool_decide (value_compare c p = Lt)
  end.

(** The value found in column [k] ([k] has been checked to be one). *)
Definition col (k : string) (d : Device) : value :=
  default VNone (column k d).

(** ORDER BY k1 dir, k2 dir, ...: lexicographic, each key in direction
    [dir]. *)
Fixpoint rows_compare (desc : bool) (keys : list string) (a b : Device)
  : comparison :=
  match keys with
  | [] => Eq
  | k :: ks =>
      match value_compare (col k a) (col k b) with
      | Eq => rows_compare desc ks a b
      | c => if desc then CompOpp c else c
      end
  end.

Definition row_le (desc : bool) (keys : list string) : relation Device :=
  λ a b, rows_compare desc keys a b ≠ Gt.

Global Instance row_le_dec desc keys : RelDecision (row_le desc keys).
Proof. intros a b. unfold row_le. apply _. Defined.

(** Strictly before, in that order. *)
Definition row_lt (desc : bool) (keys : list string) : relation Device :=
  λ a b, rows_compare desc keys a b = Lt.

Global Instance row_lt_dec desc keys : RelDecision (row_lt desc keys).
Proof. intros a b. unfold row_lt. apply _. Defined.

Definition order_by (desc : bool) (keys : list string) (q : table) : table :=
  merge_sort (row_le desc keys) q.

(** The next free primary key: one more than the largest in use. *)
Definition id_Z (d : Device) : Z :=
  match id d with VInt z => z | _ => 0 end.

Definition next_id (tbl : table) : Z :=
  1 + foldr Z.max 0 (id_Z <$> tbl).

(** The constraints of the table: [id] is the primary key, [uuid] is
    unique ([uniq_device0uuid]); NULLs never collide. *)
Definition id_taken (i : value) (tbl : table) : bool :=
  existsb (λ r, bool_decide (id r = i)) tbl.

Definition uuid_taken (u : value) (tbl : table) : bool :=
  match u with
  | VNone => false
  | _ => existsb (λ r, bool_decide (uuid r = u)) tbl
  end.

(** The table after a call on [tbl]: a call that raises has written
    nothing (a failed INSERT stores no row, an exception raised inside
    [with session.begin()] rolls the transaction back). *)
Definition table_after {A} (r : result (A * table)) (tbl : table) : table :=
  match r with
  | Ok (_, tbl') => tbl'
  | Raise _ => tbl
  end.

Definition DBDuplicateEntry : exn := PyExc "DBDuplicateEntry" "".
Definition DBError : exn := PyExc "DBError" "".
Definition MultipleResultsFound : exn := PyExc "MultipleResultsFound" "".

(** The integers an INTEGER PRIMARY KEY holds: 64 bits, signed. *)
Definition key_min : Z := - 2 ^ 63.
Definition key_max : Z := 2 ^ 63 - 1.

Definition in_key_range (z : Z) : bool := (key_min <=? z) && (z <=? key_max).

(** A primary key given by the caller: an integer beyond the 64 bits
    never reaches the table; the statement fails with an error of the
    database layer, given here as [DBError], which is no
    [DBDuplicateEntry].  A key in use is a key of the table and so
    within range; the test for it is written first, so that this need
    not be assumed of the table. *)
Definition given_key (z : Z) (tbl : table) : result value :=
  if id_taken (VInt z) tbl || in_key_range z then Ok (VInt z)
  else Raise DBError.

(** [device.save()] of a new object: the INSERT.  A missing primary key
    is generated, a missing [created_at] takes the column default; a
    violated constraint surfaces as [DBDuplicateEntry] and nothing is
    stored.  A key given as a string is stored as the integer the
    backend reads it as, and a string it cannot read as one is refused.
    The strings followed here are the numerals as [str] prints them (see
    [integer_param] below); the backend reads a few other spellings of a
    number as well (['+2'], [' 2'], ['2.0']), so the properties below
    that depend on the key are stated for keys that are integers or
    left to the database.  The row given back is the row as stored. *)
Definition new_key (d : Device) (tbl : table) : result value :=
  match id d with
  | VNone => Ok (VInt (next_id tbl))
  | VInt z => given_key z tbl
  | VStr s =>
      if Utils.is_int_like s then given_key (Utils.int_of s) tbl
      else Raise DBError
  end.

Definition insert (d : Device) (now : Z) (tbl : table)
  : result (Device * table) :=
  i ← new_key d tbl;
  let d' :=
    {| created_at :=
         (match created_at d with VNone => VInt now | t => t end);
       updated_at := updated_at d;
       id := i;
       project_id := project_id d;
       user_id := user_id d;
       uuid := uuid d;
       name := name d;
       desc := desc d |} in
  if id_taken i tbl || uuid_taken (uuid d') tbl
  then Raise DBDuplicateEntry
  else Ok (d', (tbl ++ [d'])%list).

(** [query.one()]. *)
Definition one (device : string) (q : table) : result Device :=
  match q with
  | [] => Raise (mkDeviceNotFound device)
  | [d] => Ok d
  | _ => Raise MultipleResultsFound
  end.

(** The flush of a changed persistent object at commit: no statement
    when no column changed; otherwise one UPDATE of the row, which also
    stamps [updated_at] unless the caller assigned it, and which fails as
    a whole when the new primary key is not an integer or is in use. *)
Definition flush (old new : Device) (now : Z) (tbl : table)
  : result (Device * table) :=
  if bool_decide (new = old) then Ok (old, tbl)
  else
    let new' :=
      {| created_at := created_at new;
         updated_at :=
           (if bool_decide (updated_at new = updated_at old)
            then VInt now else updated_at new);
         id := id new;
         project_id := project_id new;
         user_id := user_id new;
         uuid := uuid new;
         name := name new;
         desc := desc new |} in
    let others := filter (λ r, id r ≠ id old) tbl in
    match id new with
    | VInt _ =>
        if id_taken (id new) others || uuid_taken (uuid new) others
        then Raise DBDuplicateEntry
        else Ok (new',
                 (λ r, if bool_decide (id r = id old) then new' else r)
                   <$> tbl)
    | _ => Raise DBError
    end.

(** What every reachable table satisfies: integer primary keys, no two
    rows with the same [id], no two rows with the same non-NULL [uuid]. *)
Definition consistent (tbl : table) : Prop :=
  Forall (λ d, ∃ z, id d = VInt z) tbl ∧
  NoDup (id <$> tbl) ∧
  NoDup (filter (λ u, u ≠ VNone) (uuid <$> tbl)).

End Sql.

(** ** iot.db.sqlalchemy.api *)

Module DbApi.

Import Models Sql.

(** [query.filter_by(k=v)]: the rows whose column [k] equals [v], with
    [None] read as IS NULL.  The values are compared as they are; the
    conversion the backend applies when a text column meets an integer
    (or the integer column a string, for which see [integer_param]) is
    not followed. *)
Definition filter_by (k : string) (v : value) (query : table) : table :=
  filter (λ d, sql_eq (col k d) v = true) query.

(** A parameter compared with the integer column [id]: the backend reads
    an integer-shaped string as the integer it denotes.  Only the
    numerals as [str] prints them are followed, which are the strings
    [is_int_like] lets through to the column. *)
Definition integer_param (v : value) : value :=
  match v with
  | VStr s => if Utils.is_int_like s then VInt (Utils.int_of s) else v
  | _ => v
  end.

(** [query.filter_by(id=v)]. *)
Definition filter_by_id (v : value) (query : table) : table :=
  filter_by "id" (integer_param v) query.

(** [query.filter_by(uuid=v)]. *)
Definition filter_by_uuid (v : value) (query : table) : table :=
  filter_by "uuid" v query.

(** [add_identity_filter(query, value)]. *)
Definition add_identity_filter (query : table) (value : string)
  : result table :=
  if Utils.is_int_like value then Ok (filter_by_id (VStr value) query)
  else if Utils.is_uuid_like value then
    Ok (filter_by_uuid (VStr value) query)
  else Raise (mkInvalidIdentity value).

(** *** oslo.db's [paginate_query] *)

(** [_paginate_query] hands the query to the library function
    [oslo.db.sqlalchemy.utils.paginate_query], given here as the library
    performs it on the rows: ORDER BY each sort key, a WHERE clause
    built from the marker's values of the sort keys, LIMIT.  The marker
    is a row, read with [marker[sort_key]]. *)

(** The i-th criterion: equality with the marker on the first [i] sort
    keys, and beyond the marker on key [i]. *)
Definition criterion (desc : bool) (sort_keys : list string)
    (marker r : Device) (i : nat) : bool :=
  forallb (λ k, sql_eq (col k r) (col k marker)) (take i sort_keys) &&
  match sort_keys !! i with
  | Some k =>
      if desc then sql_lt (col k r) (col k marker)
      else sql_gt (col k r) (col k marker)
  | None => false
  end.

(** The disjunction of the criteria, one per sort key. *)
Definition after_marker (desc : bool) (sort_keys : list string)
    (marker r : Device) : bool :=
  existsb (criterion desc sort_keys marker r) (seq 0 (length sort_keys)).

Definition sort_direction (sort_dir : option string) : result bool :=
  match sort_dir with
  | None => Ok false
  | Some d =>
      if String.eqb d "asc" then Ok false
      else if String.eqb d "desc" then Ok true
      else Raise (PyExc "ValueError"
                    "Unknown sort direction, must be 'desc' or 'asc'")
  end.

(** The comparison [column > None] or [column < None]: SQLAlchemy
    refuses to build it. *)
Definition ArgumentError : exn :=
  PyExc "ArgumentError"
    ("Only '=', '!=', 'is_()', 'isnot()' operators can be used with "
     ++ "None/True/False").

(** [db_utils.paginate_query(query, model, limit, sort_keys, marker,
    sort_dir)]: order by the sort keys, all in direction [sort_dir]
    (ascending by default); keep the rows beyond the marker; cut at
    [limit].  A direction other than ['asc'] and ['desc'] is a
    [ValueError]; a sort key that is no column of the model is refused.
    The criteria compare each sort column with the marker's value of
    it, so a marker that has [None] under one of the sort keys stops
    the call while the query is built.  The limit is a count of rows
    (the controllers pass a positive number). *)
Definition paginate_query (query : table) (limit : option nat)
    (sort_keys : list string) (marker : option Device)
    (sort_dir : option string) : result table :=
  desc ← sort_direction sort_dir;
  if negb (forallb is_column sort_keys)
  then Raise (PyExc "InvalidSortKey" "Sort key supplied was not valid.")
  else
    let query := order_by desc sort_keys query in
    query ←
      match marker with
      | Some m =>
          if existsb (λ k, bool_decide (col k m = VNone)) sort_keys
          then Raise ArgumentError
          else Ok (filter (λ r, after_marker desc sort_keys m r = true)
                     query)
      | None => Ok query
      end;
    Ok (match limit with
        | Some n => take n query
        | None => query
        end).

(** *** The module's own functions *)

(** The list [sort_keys] that [_paginate_query] builds: ['id'], with a
    non-empty [sort_key] other than ['id'] put in front. *)
Definition sort_keys_for (sort_key : option string) : list string :=
  match sort_key with
  | Some k =>
      if negb (String.eqb k "") && negb (bool_decide (k ∈ ["id"]))
      then [k; "id"] else ["id"]
  | None => ["id"]
  end.

(** The callers always pass a query, so the default [model_query(model)]
    is never taken. *)
Definition _paginate_query (limit : option nat) (marker : option Device)
    (sort_key : option string) (sort_dir : option string) (query : table)
  : result table :=
  let sort_keys := sort_keys_for sort_key in
  paginate_query query limit sort_keys marker sort_dir.

(** *** class Connection *)

(** The methods work on the table, passed in and returned.  [gen] is the
    value [utils.generate_uuid()] returns when it is called, [now] the
    reading of the clock. *)

(** [filter_by(image_id=...)] names a property the model does not have,
    which SQLAlchemy refuses. *)
Definition _add_devices_filters (query : table)
    (filters : option (gmap string value)) : result table :=
  let filters := default ∅ filters in
  let query :=
    match filters !! "name" with
    | Some v => filter_by "name" v query
    | None => query
    end in
  match filters !! "image_id" with
  | Some _ =>
      Raise (PyExc "InvalidRequestError"
               "Entity has no property image_id")
  | None => Ok query
  end.

Definition get_device_list (filters : option (gmap string value))
    (limit : option nat) (marker : option Device)
    (sort_key sort_dir : option string) (tbl : table) : result table :=
  query ← _add_devices_filters tbl filters;
  _paginate_query limit marker sort_key sort_dir query.

Definition create_device (values : gmap string value) (gen : string)
    (now : Z) (tbl : table) : result (instance * table) :=
  let values :=
    if truthy (default VNone (values !! "uuid")) then values
    else <["uuid" := VStr gen]> values in
  let device := update values (loaded blank) in
  match insert (row device) now tbl with
  | Ok (d, tbl') => Ok (mkInstance d (attrs device), tbl')
  | Raise e =>
      if bool_decide (e = DBDuplicateEntry)
      then Raise (mkDeviceAlreadyExists (default VNone (values !! "uuid")))
      else Raise e
  end.

Definition get_device_by_id (device_id : value) (tbl : table)
  : result Device :=
  one (str device_id) (filter_by_id device_id tbl).

Definition get_device_by_uuid (device_uuid : value) (tbl : table)
  : result Device :=
  one (str device_uuid) (filter_by_uuid device_uuid tbl).

(** [get_deviceinfo_list]: the listing of [get_device_list] with the
    given columns of each row instead of the row; the column [id] when
    none is named.  An empty list of columns leaves [model_query]
    without its first argument.  The names are read with
    [getattr(models.Device, c)], which finds the columns and also every
    other attribute of the class, those inherited from oslo.db and
    SQLAlchemy among them; what becomes of a query on such an attribute
    is not followed here, and the answer for a name that is no column
    is [None]. *)
Definition get_deviceinfo_list (columns : option (list string))
    (filters : option (gmap string value)) (limit : option nat)
    (marker : option Device) (sort_key sort_dir : option string)
    (tbl : table) : option (result (list (list value))) :=
  let columns := default ["id"] columns in
  if negb (forallb is_column columns) then None
  else
    Some
      match columns with
      | [] =>
          Raise (PyExc "TypeError"
                   "model_query() takes at least 1 argument (0 given)")
      | _ =>
          query ← _add_devices_filters tbl filters;
          match _paginate_query limit marker sort_key sort_dir query with
          | Ok rows =>
              Ok ((λ d : Device, (λ c, col c d) <$> columns) <$> rows)
          | Raise e => Raise e
          end
      end.

(** [destroy_device]: the rows of the filtered query are deleted and
    counted; the exception raised inside [with session.begin()] rolls the
    deletion back. *)
Definition destroy_device (device_id : string) (tbl : table)
  : result (unit * table) :=
  query ← add_identity_filter tbl device_id;
  let count := length query in
  if bool_decide (count ≠ 1%nat)
  then Raise (mkDeviceNotFound_positional device_id)
  else Ok ((), filter (λ d, d ∉ query) tbl).

Definition _do_update_device (device_id : string)
    (values : gmap string value) (now : Z) (tbl : table)
  : result (instance * table) :=
  query ← add_identity_filter tbl device_id;
  ref ← one device_id query;
  let values :=
    if bool_decide ("provision_state" ∈ dom values)
    then <["provision_updated_at" := VInt now]> values else values in
  let ref' := update values (loaded ref) in
  '(d, tbl') ← flush ref (row ref') now tbl;
  Ok (mkInstance d (attrs ref'), tbl').

Definition update_device (device_id : string)
    (values : gmap string value) (now : Z) (tbl : table)
  : result (instance * table) :=
  if bool_decide ("uuid" ∈ dom values) then
    Raise (mkInvalidParameterValue
             "Cannot overwrite UUID for an existing Device.")
  else _do_update_device device_id values now tbl.

End DbApi.

(** ** iot.db.api *)

Module Api.

(** The abstract [Connection]: what a storage engine offers the domain
    object, over the engine's state [S].  [update_device] is not among
    the abstract methods the class declares, but [Device.save] calls it
    and the SQLAlchemy engine defines it. *)
Class Connection (S : Type) : Type := {
  get_device_list :
    option (gmap string value) → option nat → option Models.Device →
    option string → option string → S → result (list Models.Device);
  create_device : gmap string value → S → result (Models.instance * S);
  get_device_by_id : value → S → result Models.Device;
  get_device_by_uuid : value → S → result Models.Device;
  destroy_device : string → S → result (unit * S);
  update_device :
    string → gmap string value → S → result (Models.instance * S)
}.

End Api.

(** The SQLAlchemy engine as a [Connection] on the table, for a given
    answer [gen] of the uuid generator and a given clock reading [now]. *)
Definition sqlalchemy_backend (gen : string) (now : Z)
  : Api.Connection (list Models.Device) :=
  {| Api.get_device_list := λ filters limit marker sort_key sort_dir tbl,
       DbApi.get_device_list filters limit marker sort_key sort_dir tbl;
     Api.create_device := λ values tbl,
       DbApi.create_device values gen now tbl;
     Api.get_device_by_id := DbApi.get_device_by_id;
     Api.get_device_by_uuid := DbApi.get_device_by_uuid;
     Api.destroy_device := DbApi.destroy_device;
     Api.update_device := λ device_id values tbl,
       DbApi.update_device device_id values now tbl |}.

(** ** iot.objects.device *)

Module Objects.

(** A [Device] domain object: the values of the fields assigned so far
    and the names of the fields changed since the last reset. *)
Record Device : Type := mkDevice {
  obj_attrs : gmap string value;
  obj_changed_fields : gset string
}.

(** [cls(context)]: nothing assigned yet. *)
Definition new : Device := mkDevice ∅ ∅.

(** The keys of the class attribute [fields]. *)
Definition fields : list string :=
  ["id"; "uuid"; "name"; "project_id"; "user_id"; "image_id"].

(** Modelled from the spec: [iot.objects.base.IoTObject] is not among
    the sources.  The spec has the object "track per-instance dirty
    fields": assigning a field stores the value and records the field as
    changed. *)
Definition setitem (field : string) (v : value) (o : Device) : Device :=
  {| obj_attrs := <[field := v]> (obj_attrs o);
     obj_changed_fields := {[field]} ∪ obj_changed_fields o |}.

(** A run of assignments [self.f = v], in order. *)
Definition assign_all (l : list (string * value)) (o : Device) : Device :=
  foldl (λ o fv, setitem fv.1 fv.2 o) o l.

(** Modelled from the spec: reading a field of the absent base class;
    a field never assigned has no value to give and the read raises. *)
Definition getattr (o : Device) (field : string) : result value :=
  match obj_attrs o !! field with
  | Some v => Ok v
  | None => Raise (PyExc "NotImplementedError" field)
  end.

(** Modelled from the spec: [obj_reset_changes] of the absent base
    class "resets the changed tracking set". *)
Definition obj_reset_changes (o : Device) : Device :=
  {| obj_attrs := obj_attrs o; obj_changed_fields := ∅ |}.

(** Modelled from the spec: [obj_get_changes] of the absent base class,
    "the fields changed since load/last save" with their current values. *)
Definition obj_get_changes (o : Device) : gmap string value :=
  filter (λ kv, kv.1 ∈ obj_changed_fields o) (obj_attrs o).

(** The loop [for field in device.fields: device[field] =
    db_device[field]]; a field the database object does not have stops
    it with the [AttributeError] of [getattr]. *)
Fixpoint copy_fields (fs : list string) (device : Device)
    (db_device : Models.instance) : result Device :=
  match fs with
  | [] => Ok device
  | field :: fs' =>
      match Models.getitem db_device field with
      | Some v => copy_fields fs' (setitem field v device) db_device
      | None => Raise (PyExc "AttributeError" field)
      end
  end.

Definition _from_db_object (device : Device) (db_device : Models.instance)
  : result Device :=
  device ← copy_fields fields device db_device;
  Ok (obj_reset_changes device).

Section methods.

Context {S : Type} {dbapi : Api.Connection S}.

Definition get_by_id (device_id : value) (st : S) : result Device :=
  db_device ← Api.get_device_by_id device_id st;
  _from_db_object new (Models.loaded db_device).

Definition get_by_uuid (uuid : value) (st : S) : result Device :=
  db_device ← Api.get_device_by_uuid uuid st;
  _from_db_object new (Models.loaded db_device).

Definition get (device_id : string) (st : S) : result Device :=
  if Utils.is_int_like device_id then get_by_id (VStr device_id) st
  else if Utils.is_uuid_like device_id then get_by_uuid (VStr device_id) st
  else Raise (mkInvalidIdentity device_id).

Definition create (self : Device) (st : S) : result (Device * S) :=
  let values := obj_get_changes self in
  '(db_device, st') ← Api.create_device values st;
  self' ← _from_db_object self db_device;
  Ok (self', st').

(** The identifier [self.uuid] reaches the storage layer as it is; the
    shape tests and the messages there see it through its [str]. *)
Definition destroy (self : Device) (st : S) : result (Device * S) :=
  uuid ← getattr self "uuid";
  '(_, st') ← Api.destroy_device (str uuid) st;
  Ok (obj_reset_changes self, st').

Definition save (self : Device) (st : S) : result (Device * S) :=
  let updates := obj_get_changes self in
  uuid ← getattr self "uuid";
  '(_, st') ← Api.update_device (str uuid) updates st;
  Ok (obj_reset_changes self, st').

(** [_from_db_object_list]: one fresh object per database entity. *)
Fixpoint _from_db_object_list (db_objects : list Models.instance)
  : result (list Device) :=
  match db_objects with
  | [] => Ok []
  | obj :: rest =>
      o ← _from_db_object new obj;
      os ← _from_db_object_list rest;
      Ok (o :: os)
  end.

(** The class method [list]. *)
Definition Device_list (limit : option nat) (marker : option Models.Device)
    (sort_key sort_dir : option string) (st : S) : result (list Device) :=
  db_devices ← Api.get_device_list None limit marker sort_key sort_dir st;
  _from_db_object_list (Models.loaded <$> db_devices).

(** The loop of [refresh]: [for field in self.fields: if
    hasattr(self, get_attrname(field)) and self[field] !=
    current[field]: self[field] = current[field]].  The test [hasattr]
    holds of the fields assigned so far, so a field never assigned is
    left alone; the reads and the assignment are those of the base
    class, as given above. *)
Fixpoint refresh_fields (fs : list string) (self current : Device)
  : result Device :=
  match fs with
  | [] => Ok self
  | field :: fs' =>
      match obj_attrs self !! field with
      | None => refresh_fields fs' self current
      | Some mine =>
          theirs ← getattr current field;
          if bool_decide (mine ≠ theirs)
          then refresh_fields fs' (setitem field theirs self) current
          else refresh_fields fs' self current
      end
  end.

(** [refresh]: the object is loaded again under [self.uuid], then
    compared field by field. *)
Definition refresh (self : Device) (st : S) : result Device :=
  uuid ← getattr self "uuid";
  current ← get_by_uuid uuid st;
  refresh_fields fields self current.

(** [create], together with the storage state it leaves behind: the
    state the backend returned is in force also when the conversion of
    the returned entity raises. *)
Definition create_outcome (self : Device) (st : S) : result Device * S :=
  let values := obj_get_changes self in
  match Api.create_device values st with
  | Ok (db_device, st') => (_from_db_object self db_device, st')
  | Raise e => (Raise e, st)
  end.

End methods.

End Objects.

(** ** The controller wrappers of iot.common.exception *)

Module Wrappers.

(** What a controller can touch besides its result: the response pecan
    is building and the server's log. *)
Record pecan_response : Type := mkResponse {
  status : Z;
  text : string;
  content_type : option string
}.

Record world : Type := mkWorld {
  response : pecan_response;
  log : list (string * string)
}.

(** A computation that returns or raises, and changes the world either
    way. *)
Definition M (A : Type) : Type := world → result A * world.

(** [LOG.error] / [LOG.debug]: one more line in the server's log. *)
Definition LOG (level line : string) (w : world) : world :=
  {| response := response w; log := (log w ++ [(level, line)])%list |}.

Definition OBFUSCATED_MSG (correlation_id : string) : string :=
  "Your request could not be handled because of a problem in the server. "
  ++ "Error Correlation id is: " ++ correlation_id.

(** [wrap_controller_exception(func, func_server_error,
    func_client_error)], applied; [uuid4] is the value [uuid.uuid4()]
    yields when it is called.  The handler is that of [except
    Exception]: what is raised and is no [Exception] goes through as it
    is.  A call that returns from a handler returns [None]. *)
Definition wrap_controller_exception {A} (func : M A)
    (func_server_error : string → Z → M unit)
    (func_client_error : exn → Z → M unit) (uuid4 : string)
  : M (option A) :=
  λ w,
    match func w with
    | (Ok a, w) => (Ok (Some a), w)
    | (Raise excp, w) =>
        if is_Exception excp then
          let http_error_code :=
            match excp with
            | IoT cls _ => code cls
            | _ => 500
            end in
          if 500 <=? http_error_code then
            let log_correlation_id := uuid4 in
            let w :=
              LOG "ERROR" (log_correlation_id ++ ":" ++ text_type excp) w in
            match func_server_error log_correlation_id http_error_code w with
            | (Ok _, w) => (Ok None, w)
            | (Raise e, w) => (Raise e, w)
            end
          else
            let w := LOG "DEBUG" (text_type excp) w in
            match func_client_error excp http_error_code w with
            | (Ok _, w) => (Ok None, w)
            | (Raise e, w) => (Raise e, w)
            end
        else (Raise excp, w)
    end.

Definition wrap_wsme_controller_exception {A} (func : M A) (uuid4 : string)
  : M (option A) :=
  let _func_server_error (log_correlation_id : string) (status_code : Z)
    : M unit :=
    λ w, (Raise (ClientSideError (OBFUSCATED_MSG log_correlation_id)
                   status_code), w) in
  let _func_client_error (excp : exn) (status_code : Z) : M unit :=
    λ w, (Raise (ClientSideError (text_type excp) status_code), w) in
  wrap_controller_exception func _func_server_error _func_client_error
    uuid4.

Definition wrap_pecan_controller_exception {A} (func : M A)
    (uuid4 : string) : M (option A) :=
  let _func_server_error (log_correlation_id : string) (status_code : Z)
    : M unit :=
    λ w, (Ok (),
          {| response :=
               {| status := status_code;
                  text := OBFUSCATED_MSG log_correlation_id;
                  content_type := content_type (response w) |};
             log := log w |}) in
  let _func_client_error (excp : exn) (status_code : Z) : M unit :=
    λ w, (Ok (),
          {| response :=
               {| status := status_code;
                  text := text_type excp;
                  content_type := None |};
             log := log w |}) in
  wrap_controller_exception func _func_server_error _func_client_error
    uuid4.

(** The status code the wrapper computes for an exception. *)
Definition http_error_code_of (excp : exn) : Z :=
  match excp with
  | IoT cls _ => code cls
  | _ => 500
  end.

(** What the client gets to see of a wrapped wsme call that failed: the
    text and the status code of the [ClientSideError]. *)
Definition wsme_client_view {A} (r : result A * world)
  : option (string * Z) :=
  match r.1 with
  | Raise (ClientSideError msg status_code) => Some (msg, status_code)
  | _ => None
  end.


(** *** wrap_exception and wrap_keystone_exception *)

Section decorators.

(** The wrapped functions run in some world [W]; [Ctx] is the request
    context and [CallArgs] what [safe_utils.getcallargs] collects. *)
Context {W A Ctx CallArgs : Type}.

(** A notifier: its [notify] method, which may itself raise, and its
    level [ERROR]. *)
Record notifier : Type := mkNotifier {
  notify :
    Ctx → option string → string → string → exn * CallArgs →
    W → result unit * W;
  ERROR : string
}.

Definition or_default (o : option string) (d : string) : string :=
  match o with
  | Some (String c s) => String c s
  | _ => d
  end.

(** [wrap_exception(notifier, publisher_id, event_type, level)(f)]
    applied to a context; [f_name] is [f.__name__] and [call_dict] the
    call arguments.  The exception of [f] is raised again when the block
    under [save_and_reraise_exception] ends; an exception raised inside
    the block takes its place.  What is raised and is no [Exception]
    does not enter the handler. *)
Definition wrap_exception (notifier : option notifier)
    (publisher_id event_type level : option string)
    (f_name : string) (call_dict : CallArgs)
    (f : Ctx → W → result A * W) (context : Ctx) : W → result A * W :=
  λ w,
    match f context w with
    | (Ok a, w) => (Ok a, w)
    | (Raise e, w) =>
        if is_Exception e then
          match notifier with
          | Some n =>
              let payload := (e, call_dict) in
              let temp_level := or_default level (ERROR n) in
              let temp_type := or_default event_type f_name in
              match notify n context publisher_id temp_type temp_level
                      payload w with
              | (Ok _, w) => (Raise e, w)
              | (Raise e', w) => (Raise e', w)
              end
          | None => (Raise e, w)
          end
        else (Raise e, w)
    end.

(** [wrap_keystone_exception(func)]: the two [isinstance] tests of the
    [except] clauses are given, keystoneclient's classes not being part
    of this code; [func_name] is [func.__name__]. *)
Definition wrap_keystone_exception
    (is_keystone_AuthorizationFailure is_keystone_ClientException
       : exn → bool)
    (fatal_exception_format_errors : bool) (func_name : string)
    (func : W → result A * W) : W → result A * W :=
  λ w,
    match func w with
    | (Ok a, w) => (Ok a, w)
    | (Raise e, w) =>
        if is_keystone_AuthorizationFailure e then
          (excp ← IoTException_init fatal_exception_format_errors
                    AuthorizationFailure
                    (Some ("reason: " ++ text_type e))
                    {[ "client" := func_name ]};
           Raise excp, w)
        else if is_keystone_ClientException e then
          (excp ← IoTException_init fatal_exception_format_errors
                    AuthorizationFailure
                    (Some ("unexpected keystone client error occurred: "
                           ++ text_type e))
                    {[ "client" := func_name ]};
           Raise excp, w)
        else (Raise e, w)
    end.

End decorators.

End Wrappers.

(** ** iot.api.controllers.v1.base *)

Module QueryFilter.

(** The exceptions a converter can raise, as the handlers of
    [_get_value_as_type] tell them apart. *)
Inductive raised : Type :=
  | ValueError
  | SyntaxError
  | TypeError
  | OtherException.

(** A [Query]: [value] and [type] are wsme attributes, unset ([None]
    here) until given. *)
Record Query : Type := mkQuery {
  field : option string;
  _op : option string;
  value : option string;
  type : option string
}.

Definition get_op (q : Query) : string :=
  match _op q with
  | Some o => if String.eqb o "" then "eq" else o
  | None => "eq"
  end.

Definition _supported_types : list string :=
  ["integer"; "float"; "string"; "boolean"].

(** The names bound in the module when [_get_value_as_type] runs: its
    imports and its own definitions. *)
Definition module_globals : list string :=
  ["ast"; "functools"; "inspect"; "strutils"; "timeutils"; "six"; "wsme";
   "exc"; "wtypes"; "operation_kind"; "operation_kind_enum"; "_"; "_LI";
   "_LW"; "_LE"; "_LC"; "_Base"; "Query"].

(** [raise ClientSideError(msg)]: the name is looked up first. *)
Definition raise_ClientSideError {A} (msg : string) : result A :=
  if bool_decide ("ClientSideError" ∈ module_globals)
  then Raise (ClientSideError msg 400)
  else Raise (PyExc "NameError"
                "global name 'ClientSideError' is not defined").

(** [set_op]. *)
Definition set_op (v : option string) (q : Query) : Query :=
  {| field := field q; _op := v; value := value q; type := type q |}.

(** The wsme attributes of a [Query] by name, [None] for one that is
    [wsme.Unset]; [op] is the property over [get_op]. *)
Definition query_getattr (q : Query) (k : string) : option string :=
  if String.eqb k "field" then field q
  else if String.eqb k "op" then Some (get_op q)
  else if String.eqb k "type" then type q
  else if String.eqb k "value" then value q
  else None.

(** [as_dict_from_keys(keys)], for keys among the four attributes. *)
Definition as_dict_from_keys (q : Query) (keys : list string)
  : gmap string string :=
  foldr (λ k m, match query_getattr q k with
                | Some v => <[k := v]> m
                | None => m
                end) ∅ keys.

(** [Query.as_dict]. *)
Definition as_dict (q : Query) : gmap string string :=
  as_dict_from_keys q ["field"; "op"; "type"; "value"].

Section converters.

(** The converted values [V] and the library converters, each returning
    a value or raising: [int], [float], strict [bool_from_string],
    [six.text_type], [parse_isotime] and [ast.literal_eval]; [raw] is
    the unconverted value itself. *)
Context {V : Type}.
Context (int float bool_from_string text_type parse_isotime literal_eval
         : option string → V + raised).
Context (raw : option string → V).

Definition _type_converters (type : string)
  : option (option string → V + raised) :=
  if String.eqb type "integer" then Some int
  else if String.eqb type "float" then Some float
  else if String.eqb type "boolean" then Some bool_from_string
  else if String.eqb type "string" then Some text_type
  else if String.eqb type "datetime" then Some parse_isotime
  else None.

Definition show (o : option string) : string := default "Unset" o.

(** The three handlers of the outer [try]. *)
Definition handler (e : raised) (q : Query) (type : option string)
  : result V :=
  match e with
  | ValueError =>
      raise_ClientSideError
        ("Unable to convert the value " ++ show (value q) ++
         " to the expected data type " ++ show type ++ ".")
  | TypeError =>
      raise_ClientSideError
        ("The data type " ++ show type ++ " is not supported. The " ++
         "supported data type list is: " ++
         "['integer', 'float', 'string', 'boolean']")
  | _ =>
      raise_ClientSideError
        ("Unexpected exception converting " ++ show (value q) ++
         " to the expected data type " ++ show type ++ ".")
  end.

Definition is_set (o : option string) : bool :=
  match o with
  | Some s => negb (String.eqb s "")
  | None => false
  end.

Definition _get_value_as_type (forced_type : option string) (q : Query)
  : result V :=
  let type := if is_set forced_type then forced_type else type q in
  match type with
  | Some t =>
      if String.eqb t "" then
        match literal_eval (value q) with
        | inl v => Ok v
        | inr ValueError | inr SyntaxError => Ok (raw (value q))
        | inr e => handler e q type
        end
      else if negb (bool_decide (t ∈ _supported_types)) then
        handler TypeError q type
      else
        match _type_converters t with
        | Some convert =>
            match convert (value q) with
            | inl v => Ok v
            | inr e => handler e q type
            end
        | None => handler OtherException q type
        end
  | None =>
      match literal_eval (value q) with
      | inl v => Ok v
      | inr ValueError | inr SyntaxError => Ok (raw (value q))
      | inr e => handler e q type
      end
  end.

End converters.

End QueryFilter.

(** ** Sample data *)

Import Models Sql DbApi.

(** Two stored devices, used in the examples below. *)
Definition device_a : Device :=
  mkDevice (VInt 100) VNone (VInt 1) VNone VNone
    (VStr "bd9431c1-8d69-4ad3-803a-8d4a6b89fd36") (VStr "sensor1")
    (VStr "temp sensor").

Definition device_b : Device :=
  mkDevice (VInt 101) VNone (VInt 2) VNone VNone
    (VStr "0f0e0d0c-0b0a-4900-8807-060504030201") (VStr "sensor2") VNone.

(** A device created without a name: the column is NULL. *)
Definition device_c : Device :=
  mkDevice (VInt 102) VNone (VInt 3) VNone VNone
    (VStr "7d2f0c1e-5a4b-4c3d-9e8f-001122334455") VNone VNone.

(** * Properties *)

(** Two tests that agree on the elements of a list select the same
    sublist. *)
Lemma filter_ext_elem {A} (P Q : A → Prop) `{∀ x, Decision (P x)}
    `{∀ x, Decision (Q x)} (l : list A) :
  (∀ x, x ∈ l → P x ↔ Q x) → filter P l = filter Q l.
Proof.
  induction l as [|a l IH]; intros Hl; [done|].
  rewrite !filter_cons.
  rewrite IH by (intros x Hx; apply Hl; by right).
  destruct (decide (P a)) as [Hp|Hp], (decide (Q a)) as [Hq|Hq]; try done.
  - destruct Hq. apply Hl; [left|done].
  - destruct Hp. apply Hl; [left|done].
Qed.

(** ** Identity resolution *)

Section identity.

Import Utils.

Local Arguments is_digit : simpl never.
Local Arguments is_hex : simpl never.

Lemma is_canonical_nat_all_digits s :
  is_canonical_nat s = true → all_digits s = true.
Proof.
  destruct s as [|c [|c' s']]; simpl; try done.
  - by rewrite andb_true_r.
  - intros H. apply andb_prop in H as [H H3].
    apply andb_prop in H as [H1 H2]. by rewrite H1.
Qed.

(** Past its first character an integer-shaped string has only digits. *)
Lemma is_int_like_tail c s :
  is_int_like (String c s) = true → all_digits s = true.
Proof.
  unfold is_int_like. intros H.
  assert (is_canonical_nat s = true ∨ is_canonical_nat (String c s) = true)
    as [Hs|Hs].
  { destruct (Ascii.eqb_spec c "-"%char) as [->|Hc].
    - left. by apply andb_prop in H as [H _].
    - right. destruct c as [[] [] [] [] [] [] [] []]; try done. }
  - by apply is_canonical_nat_all_digits.
  - apply is_canonical_nat_all_digits in Hs. simpl in Hs.
    by apply andb_prop in Hs as [_ Hs].
Qed.

(** Whatever follows a group of hexadecimal digits read off a string of
    digits starts with a digit. *)
Lemma hex_group_digits n s c rest :
  all_digits s = true → hex_group n s = Some (String c rest) →
  is_digit c = true.
Proof.
  revert s. induction n as [|n IH]; intros s Hs Hg; simpl in Hg.
  - injection Hg as ->. simpl in Hs. by apply andb_prop in Hs as [Hs _].
  - destruct s as [|a s']; [done|].
    simpl in Hs. apply andb_prop in Hs as [_ Hs].
    destruct (is_hex a); [|done]. by apply (IH s').
Qed.

Lemma int_like_not_uuid_like val :
  is_int_like val = true → is_uuid_like val = false.
Proof.
  intros Hint. destruct val as [|c s]; [done|].
  apply is_int_like_tail in Hint.
  unfold is_uuid_like, hex_group_dash.
  change (hex_group 8 (String c s))
    with (if is_hex c then hex_group 7 s else None).
  destruct (is_hex c); [|done].
  destruct (hex_group 7 s) as [[|d rest]|] eqn:Hg; try done.
  pose proof (hex_group_digits _ _ _ _ Hint Hg) as Hd.
  destruct (Ascii.eqb_spec d "-"%char) as [->|Hne]; [done|].
  destruct d as [[] [] [] [] [] [] [] []]; done.
Qed.

End identity.




(** The three identifiers the specification lists, on a table that
    holds [device_a] under the key 1 and [device_b] under the key 2. *)
Example identity_resolution_examples :
  add_identity_filter [device_a; device_b] "2" = Ok [device_b] ∧
  add_identity_filter [device_a; device_b] "42" = Ok [] ∧
  add_identity_filter [device_a; device_b]
    "bd9431c1-8d69-4ad3-803a-8d4a6b89fd36" = Ok [device_a] ∧
  add_identity_filter [device_a; device_b] "not-an-id"
    = Raise (IoT InvalidIdentity
               "Expected an uuid or int but received not-an-id.").
Proof. by vm_compute. Qed.

(** ** update_device: the uuid guard *)

(** C10.  In [update_device] the test for the key ['uuid'] comes before
    any lookup: whatever the identifier and the table (the device may
    well not exist, the identifier may be of no valid shape), a mapping
    with the key ['uuid'] raises [InvalidParameterValue], never
    [DeviceNotFound], and the table stays as it was. *)
Theorem update_device_uuid_guard_first
    (device_id : string) (values : gmap string value) (now : Z)
    (tbl : table) :
  "uuid" ∈ dom values →
  update_device device_id values now tbl
    = Raise (mkInvalidParameterValue
               "Cannot overwrite UUID for an existing Device.") ∧
  raised_class (update_device device_id values now tbl)
    = Some InvalidParameterValue ∧
  raised_class (update_device device_id values now tbl)
    ≠ Some DeviceNotFound ∧
  table_after (update_device device_id values now tbl) tbl = tbl.
Proof.
  intros Huuid. unfold update_device.
  rewrite bool_decide_eq_true_2 by done. done.
Qed.

Lemma update_device_uuid_guard_first_witness :
  let values : gmap string value :=
    {[ "uuid" := VStr "11111111-2222-3333-4444-555555555555";
       "name" := VStr "sensor" ]} in
  get_device_by_id (VStr "42") [] = Raise (mkDeviceNotFound "42") ∧
  raised_class (update_device "42" values 0 [])
    = Some InvalidParameterValue.
Proof.
  intros values. split; [reflexivity|].
  refine (proj1 (proj2 (update_device_uuid_guard_first "42" values 0 [] _))).
  apply (bool_decide_unpack _). vm_compute. exact I.
Defined.

(** ** create_device *)


Lemma id_taken_false (i : value) (tbl : table) :
  id_taken i tbl = false ↔ ∀ r, r ∈ tbl → id r ≠ i.
Proof.
  unfold id_taken. induction tbl as [|a l IH]; simpl.
  - split; [|done]. intros _ r Hr. by apply elem_of_nil in Hr.
  - rewrite orb_false_iff, IH, bool_decide_eq_false. split.
    + intros [Ha Hl] r [->|Hr]%elem_of_cons; auto.
    + intros H. split; [apply H; left|intros r Hr; apply H; by right].
Qed.

Lemma uuid_taken_true (u : value) (tbl : table) :
  uuid_taken u tbl = true ↔ u ≠ VNone ∧ ∃ r, r ∈ tbl ∧ uuid r = u.
Proof.
  assert (existsb (λ r, bool_decide (uuid r = u)) tbl = true
          ↔ ∃ r, r ∈ tbl ∧ uuid r = u) as Hex.
  { rewrite existsb_exists. split; intros (r & Hr & Hu); exists r.
    - split; [by apply list_elem_of_In|by apply bool_decide_eq_true in Hu].
    - split; [by apply list_elem_of_In|by apply bool_decide_eq_true]. }
  unfold uuid_taken. destruct u; rewrite ?Hex.
  - split; [done|]. by intros [? _].
  - split; [by split|by intros [_ ?]].
  - split; [by split|by intros [_ ?]].
Qed.


Lemma truthy_not_None (v : value) : truthy v = true → v ≠ VNone.
Proof. by destruct v. Qed.

Lemma given_key_Ok (z : Z) (tbl : table) (i : value) :
  given_key z tbl = Ok i → i = VInt z.
Proof. unfold given_key. destruct (_ || _); [|done]. by intros [= <-]. Qed.


Lemma new_key_Ok (d : Device) (tbl : table) (i : value) :
  new_key d tbl = Ok i → ∃ z, i = VInt z.
Proof.
  unfold new_key. destruct (id d) as [|z|s].
  - intros [= <-]. by eexists.
  - intros ->%given_key_Ok. by eexists.
  - destruct (Utils.is_int_like s); [|done].
    intros ->%given_key_Ok. by eexists.
Qed.

Lemma new_key_Raise (d : Device) (tbl : table) (e : exn) :
  new_key d tbl = Raise e → e = DBError.
Proof.
  unfold new_key, given_key. destruct (id d) as [|z|s]; [done| |].
  - destruct (_ || _); [done|]. by intros [= <-].
  - destruct (Utils.is_int_like s); [|by intros [= <-]].
    destruct (_ || _); [done|]. by intros [= <-].
Qed.


Lemma insert_Raise (d : Device) (now : Z) (tbl : table) (e : exn) :
  insert d now tbl = Raise e → e = DBError ∨ e = DBDuplicateEntry.
Proof.
  unfold insert. destruct (new_key d tbl) as [i|e'] eqn:Hi; simpl.
  - destruct (_ || _); [|done]. intros [= <-]. by right.
  - intros [= <-]. left. by apply (new_key_Raise d tbl).
Qed.



(** The uuid a call of [create_device] stores: the one of the mapping
    when it is truthy, the generated one otherwise. *)
Lemma create_device_row_uuid (values : gmap string value) (gen : string) :
  let given := default VNone (values !! "uuid") in
  let values' :=
    if truthy given then values else <["uuid" := VStr gen]> values in
  default VNone (values' !! "uuid")
    = (if truthy given then given else VStr gen).
Proof.
  simpl. destruct (truthy _); [done|]. by rewrite lookup_insert_eq.
Qed.




(** ** Rows selected by a key *)

Section selection.

Context {A : Type}.
Implicit Types l : list A.

Lemma filter_all (P : A → Prop) `{∀ x, Decision (P x)} l :
  (∀ x, x ∈ l → P x) → filter P l = l.
Proof.
  induction l as [|a l IH]; intros Hl; [done|].
  rewrite filter_cons_True by (apply Hl; left).
  f_equal. apply IH. intros x Hx. apply Hl. by right.
Qed.

Lemma filter_none (P : A → Prop) `{∀ x, Decision (P x)} l :
  (∀ x, x ∈ l → ¬ P x) → filter P l = [].
Proof.
  induction l as [|a l IH]; intros Hl; [done|].
  rewrite filter_cons_False by (apply Hl; left).
  apply IH. intros x Hx. apply Hl. by right.
Qed.

(** A selection with a single row splits the list around that row. *)
Lemma filter_singleton_split (P : A → Prop) `{∀ x, Decision (P x)} l d :
  filter P l = [d] →
  ∃ l1 l2, l = (l1 ++ (d :: l2))%list ∧ P d ∧
           (∀ x, x ∈ (l1 ++ l2)%list → ¬ P x).
Proof.
  induction l as [|a l IH]; [done|].
  rewrite filter_cons. destruct (decide (P a)) as [Ha|Ha].
  - intros [= -> Hl]. exists [], l. split; [done|]. split; [done|].
    intros x Hx HPx. simpl in Hx.
    by apply (filter_nil_not_elem_of P l x).
  - intros Hl. destruct (IH Hl) as (l1 & l2 & -> & Hd & Hrest).
    exists (a :: l1), l2. split; [done|]. split; [done|].
    intros x [->|Hx]%elem_of_cons; [done|]. by apply Hrest.
Qed.

(** At most one row carries a given value of a key that is unique among
    the rows whose key satisfies [Q]. *)
Lemma filter_key_unique {B} (f : A → B) (Q : B → Prop)
    `{∀ b, Decision (Q b)} (P : A → Prop) `{∀ a, Decision (P a)} l v :
  NoDup (filter Q (f <$> l)) → Q v → (∀ x, P x → f x = v) →
  (length (filter P l) ≤ 1)%nat.
Proof.
  intros Hnd Hq HP. induction l as [|a l IH]; [simpl; lia|].
  rewrite fmap_cons in Hnd. rewrite filter_cons.
  destruct (decide (P a)) as [Ha|Ha].
  - rewrite filter_cons_True in Hnd by (by rewrite (HP a Ha)).
    apply NoDup_cons in Hnd as [Hnotin Hnd].
    rewrite (filter_none P l); [simpl; lia|].
    intros x Hx HPx. apply Hnotin. apply list_elem_of_filter.
    split; [by rewrite (HP a Ha)|].
    apply list_elem_of_fmap. exists x. split; [|done].
    by rewrite (HP a Ha), (HP x HPx).
  - apply IH. destruct (decide (Q (f a))) as [Hqa|Hqa].
    + rewrite filter_cons_True in Hnd by done.
      by apply NoDup_cons in Hnd as [_ ?].
    + by rewrite filter_cons_False in Hnd.
Qed.

Lemma length_le_1_elem l d :
  (length l ≤ 1)%nat → d ∈ l → l = [d].
Proof.
  destruct l as [|a [|b l]]; simpl; intros Hlen Hd.
  - by apply elem_of_nil in Hd.
  - by apply list_elem_of_singleton in Hd as ->.
  - lia.
Qed.

End selection.

Lemma filter_by_elem k v (d : Device) (query : table) :
  d ∈ filter_by k v query ↔ col k d = v ∧ d ∈ query.
Proof.
  unfold filter_by, sql_eq. rewrite list_elem_of_filter.
  by rewrite bool_decide_eq_true.
Qed.

(** In a consistent table a primary key selects at most one row, and so
    does a uuid. *)
Lemma consistent_id_unique (tbl : table) (z : Z) :
  consistent tbl → (length (filter_by "id" (VInt z) tbl) ≤ 1)%nat.
Proof.
  intros (_ & Hnd & _). unfold filter_by.
  apply (filter_key_unique id (λ u, u ≠ VNone) _ tbl (VInt z)).
  - by apply NoDup_filter.
  - done.
  - unfold sql_eq. intros x Hx. by apply bool_decide_eq_true in Hx.
Qed.

Lemma consistent_uuid_unique (tbl : table) (s : string) :
  consistent tbl → (length (filter_by "uuid" (VStr s) tbl) ≤ 1)%nat.
Proof.
  intros (_ & _ & Hnd). unfold filter_by.
  apply (filter_key_unique uuid (λ u, u ≠ VNone) _ tbl (VStr s)).
  - done.
  - done.
  - unfold sql_eq. intros x Hx. by apply bool_decide_eq_true in Hx.
Qed.

(** The rows an identifier of a valid shape selects. *)
Lemma add_identity_filter_unique (tbl query : table) (value : string) :
  consistent tbl → add_identity_filter tbl value = Ok query →
  (length query ≤ 1)%nat.
Proof.
  intros Hc. unfold add_identity_filter, filter_by_id, filter_by_uuid.
  destruct (Utils.is_int_like value) eqn:Hint.
  - intros [= <-]. simpl. rewrite Hint. by apply consistent_id_unique.
  - destruct (Utils.is_uuid_like value); [|done].
    intros [= <-]. by apply consistent_uuid_unique.
Qed.

(** ** destroy_device *)

(** Deleting the single selected row: the list splits around it, the
    rest is what remains, and the selection finds nothing there. *)
Lemma delete_selected (P : Device → Prop) `{∀ x, Decision (P x)}
    (tbl : table) (d : Device) :
  filter P tbl = [d] →
  ∃ l1 l2, tbl = (l1 ++ (d :: l2))%list ∧
           filter (λ x, x ∉ [d]) tbl = (l1 ++ l2)%list ∧
           (d ∉ (l1 ++ l2)%list) ∧
           filter P (l1 ++ l2)%list = [].
Proof.
  intros Hf. destruct (filter_singleton_split P tbl d Hf)
    as (l1 & l2 & -> & Hd & Hrest).
  assert (d ∉ (l1 ++ l2)%list) as Hnot.
  { intros Hin. by apply (Hrest d Hin). }
  exists l1, l2. split; [done|]. split; [|split; [done|]].
  - rewrite filter_app, filter_cons_False
      by (intros Hx; apply Hx; by apply list_elem_of_singleton).
    rewrite <- filter_app. apply filter_all.
    intros x Hx Hxd. apply list_elem_of_singleton in Hxd as ->. done.
  - by apply filter_none.
Qed.

(** C5 (as amended).  An identifier that is neither integer-shaped nor
    UUID-shaped makes [destroy_device] raise [InvalidIdentity].  For an
    identifier of a valid shape and a consistent table: when it selects
    no device the call raises [DeviceNotFound] and the table is
    unchanged; when it selects a device the call removes exactly that
    row, and afterwards the lookup by the same identifier
    ([get_device_by_id] for an integer-shaped one, [get_device_by_uuid]
    for a UUID-shaped one) raises [DeviceNotFound]. *)
Theorem destroy_device_removes_one (device_id : string) (tbl : table) :
  consistent tbl →
  (Utils.is_int_like device_id = false →
   Utils.is_uuid_like device_id = false →
   destroy_device device_id tbl = Raise (mkInvalidIdentity device_id) ∧
   table_after (destroy_device device_id tbl) tbl = tbl) ∧
  (∀ query, add_identity_filter tbl device_id = Ok query →
     (query = [] →
        raised_class (destroy_device device_id tbl) = Some DeviceNotFound ∧
        table_after (destroy_device device_id tbl) tbl = tbl) ∧
     (∀ d, d ∈ query →
        ∃ l1 l2,
          tbl = (l1 ++ (d :: l2))%list ∧
          destroy_device device_id tbl = Ok ((), (l1 ++ l2)%list) ∧
          (d ∉ (l1 ++ l2)%list) ∧
          (Utils.is_int_like device_id = true →
             get_device_by_id (VStr device_id) (l1 ++ l2)%list
               = Raise (mkDeviceNotFound device_id)) ∧
          (Utils.is_int_like device_id = false →
             get_device_by_uuid (VStr device_id) (l1 ++ l2)%list
               = Raise (mkDeviceNotFound device_id)))).
Proof.
  intros Hc. split.
  - intros Hint Huuid. unfold destroy_device, add_identity_filter.
    by rewrite Hint, Huuid.
  - intros query Hq. split.
    + intros ->. unfold destroy_device. rewrite Hq. done.
    + intros d Hd.
      pose proof (add_identity_filter_unique _ _ _ Hc Hq) as Hlen.
      apply (length_le_1_elem _ _ Hlen) in Hd. subst query.
      unfold destroy_device. rewrite Hq. simpl.
      unfold add_identity_filter in Hq.
      unfold get_device_by_id, get_device_by_uuid.
      destruct (Utils.is_int_like device_id) eqn:Hint.
      * injection Hq as Hq. unfold filter_by_id, filter_by in *.
        destruct (delete_selected _ tbl d Hq) as (l1 & l2 & -> & Hdel & Hnot & Hnone).
        exists l1, l2. rewrite Hdel, Hnone. done.
      * destruct (Utils.is_uuid_like device_id); [|done].
        injection Hq as Hq. unfold filter_by_uuid, filter_by in *.
        destruct (delete_selected _ tbl d Hq) as (l1 & l2 & -> & Hdel & Hnot & Hnone).
        exists l1, l2. rewrite Hdel, Hnone. done.
Qed.

Lemma consistent_a_b : consistent [device_a; device_b].
Proof.
  split; [|split].
  - repeat constructor; eexists; reflexivity.
  - apply (bool_decide_unpack _). by vm_compute.
  - apply (bool_decide_unpack _). by vm_compute.
Defined.

(** C5, the claim as stated fails: the identifier ["not-an-id"] names no
    stored device, yet [destroy_device] does not raise [DeviceNotFound]
    for it; it raises [InvalidIdentity]. *)
Lemma destroy_device_not_found_counterexample :
  (∀ d, d ∈ [device_a; device_b] →
        id d ≠ VStr "not-an-id" ∧ uuid d ≠ VStr "not-an-id") ∧
  raised_class (destroy_device "not-an-id" [device_a; device_b])
    = Some InvalidIdentity ∧
  ¬ raised_class (destroy_device "not-an-id" [device_a; device_b])
      = Some DeviceNotFound.
Proof.
  split; [|split; [reflexivity|discriminate]].
  intros d Hd. repeat (apply elem_of_cons in Hd as [->|Hd]); [done|done|].
  by apply elem_of_nil in Hd.
Qed.

Lemma destroy_device_removes_one_witness :
  (destroy_device "not-an-id" [device_a; device_b]
     = Raise (mkInvalidIdentity "not-an-id")) ∧
  (raised_class (destroy_device "7" [device_a; device_b])
     = Some DeviceNotFound) ∧
  (∃ l1 l2,
     [device_a; device_b] = (l1 ++ (device_b :: l2))%list ∧
     destroy_device "2" [device_a; device_b] = Ok ((), (l1 ++ l2)%list) ∧
     (device_b ∉ (l1 ++ l2)%list) ∧
     (Utils.is_int_like "2" = true →
        get_device_by_id (VStr "2") (l1 ++ l2)%list
          = Raise (mkDeviceNotFound "2")) ∧
     (Utils.is_int_like "2" = false →
        get_device_by_uuid (VStr "2") (l1 ++ l2)%list
          = Raise (mkDeviceNotFound "2"))).
Proof.
  split; [|split].
  - refine (proj1 (proj1 (destroy_device_removes_one "not-an-id"
              [device_a; device_b] consistent_a_b) _ _)); reflexivity.
  - refine (proj1 (proj1 (proj2 (destroy_device_removes_one "7"
              [device_a; device_b] consistent_a_b) [] _) _)); reflexivity.
  - refine (proj2 (proj2 (destroy_device_removes_one "2"
              [device_a; device_b] consistent_a_b) [device_b] _)
              device_b _).
    + reflexivity.
    + apply list_elem_of_singleton. reflexivity.
Defined.

(** ** update_device *)

Lemma is_column_cases (k : string) :
  is_column k = true →
  k = "created_at" ∨ k = "updated_at" ∨ k = "id" ∨ k = "project_id" ∨
  k = "user_id" ∨ k = "uuid" ∨ k = "name" ∨ k = "desc".
Proof.
  unfold is_column, columns. intros Hk%bool_decide_eq_true.
  repeat (apply elem_of_cons in Hk as [->|Hk]; [tauto|]).
  by apply elem_of_nil in Hk.
Qed.

(** Every column of the updated row holds the value of the mapping when
    the mapping names it, and its old value otherwise. *)
Lemma update_row_col (values : gmap string value) (d : Device) (k : string) :
  is_column k = true →
  col k (update_row values d) = pick values k (col k d).
Proof.
  intros Hk. apply is_column_cases in Hk.
  repeat (destruct Hk as [->|Hk]; [reflexivity|]). by subst k.
Qed.

(** A key that is no column leaves the row alone. *)
Lemma update_row_insert_other (values : gmap string value) (d : Device)
    (k : string) (v : value) :
  is_column k = false →
  update_row (<[k := v]> values) d = update_row values d.
Proof.
  intros Hk. unfold update_row, pick.
  assert (∀ c, is_column c = true → <[k := v]> values !! c = values !! c)
    as Hne.
  { intros c Hc. apply lookup_insert_ne. intros ->. congruence. }
  by rewrite !Hne.
Qed.






Lemma add_identity_filter_elem (tbl query : table) (value : string) d :
  add_identity_filter tbl value = Ok query → d ∈ query → d ∈ tbl.
Proof.
  unfold add_identity_filter, filter_by_id, filter_by_uuid.
  destruct (Utils.is_int_like value).
  - intros [= <-] Hd. by apply filter_by_elem in Hd as [_ ?].
  - destruct (Utils.is_uuid_like value); [|done].
    intros [= <-] Hd. by apply filter_by_elem in Hd as [_ ?].
Qed.

(** When the locked lookup finds the row [ref], the whole update is the
    flush of [ref] with the columns of the mapping set. *)
Lemma _do_update_device_found (device_id : string)
    (values : gmap string value) (now : Z) (tbl : table) (ref : Device) :
  add_identity_filter tbl device_id = Ok [ref] →
  ∃ extra,
    _do_update_device device_id values now tbl
      = match flush ref (update_row values ref) now tbl with
        | Ok (d, tbl') => Ok (mkInstance d extra, tbl')
        | Raise e => Raise e
        end.
Proof.
  intros Hq. unfold _do_update_device. rewrite Hq. simpl.
  case_bool_decide.
  - rewrite update_row_insert_other by done.
    eexists. destruct (flush _ _ _ _) as [[d tbl']|e]; reflexivity.
  - eexists. destruct (flush _ _ _ _) as [[d tbl']|e]; reflexivity.
Qed.




(** ** The Device domain object *)

Section domain_object.

Import Objects.

(** A row loaded from the table has no attribute [image_id]. *)
Lemma loaded_no_image_id (d : Models.Device) :
  Models.getitem (loaded d) "image_id" = None.
Proof. reflexivity. Qed.

(** C7.  The conversion [_from_db_object] does not construct a Device
    object from a stored row: the object declares the field [image_id],
    the [device] table has no such column, and the copy loop stops with
    the [AttributeError] of [db_device['image_id']].  So no lookup of
    the domain object ([get_by_id], [get_by_uuid]) returns an object. *)
Theorem from_db_object_stored_row_raises
    (device : Objects.Device) (d : Models.Device)
    (S : Type) (dbapi : Api.Connection S) (v : value) (st : S) :
  _from_db_object device (loaded d)
    = Raise (PyExc "AttributeError" "image_id") ∧
  is_Ok (get_by_id v st) = false ∧
  is_Ok (get_by_uuid v st) = false.
Proof.
  split; [reflexivity|].
  unfold get_by_id, get_by_uuid. split.
  - by destruct (Api.get_device_by_id v st).
  - by destruct (Api.get_device_by_uuid v st).
Qed.

(** The failing input of C7: the stored device [device_a], looked up by
    its uuid in the SQLAlchemy backend. *)
Example from_db_object_device_a :
  get_device_by_uuid (VStr "bd9431c1-8d69-4ad3-803a-8d4a6b89fd36")
    [device_a; device_b] = Ok device_a ∧
  _from_db_object new (loaded device_a)
    = Raise (PyExc "AttributeError" "image_id") ∧
  @get_by_uuid _ (sqlalchemy_backend "" 0)
    (VStr "bd9431c1-8d69-4ad3-803a-8d4a6b89fd36") [device_a; device_b]
    = Raise (PyExc "AttributeError" "image_id").
Proof. by vm_compute. Qed.

(** What the conversion does when the database object has every
    declared field (as the object returned by [create_device] has, when
    the created mapping carried [image_id]): each field is copied as it
    is and the change-set is left empty. *)
Lemma copy_fields_complete (fs : list string) (device : Objects.Device)
    (db_device : Models.instance) :
  (∀ f, f ∈ fs → is_Some (Models.getitem db_device f)) →
  ∃ o, copy_fields fs device db_device = Ok o ∧
       (∀ f, f ∈ fs → obj_attrs o !! f = Models.getitem db_device f) ∧
       (∀ f, f ∉ fs → obj_attrs o !! f = obj_attrs device !! f).
Proof.
  revert device. induction fs as [|f fs IH]; intros device Hall.
  - exists device. split; [done|]. split; [|done].
    intros f Hf. by apply elem_of_nil in Hf.
  - simpl. destruct (Hall f) as [v Hv]; [left|]. rewrite Hv.
    destruct (IH (setitem f v device)) as (o & -> & Hin & Hout).
    { intros g Hg. apply Hall. by right. }
    exists o. split; [done|]. split.
    + intros g Hg. destruct (decide (g ∈ fs)) as [Hgs|Hgs]; [by apply Hin|].
      apply elem_of_cons in Hg as [->|Hg]; [|done].
      rewrite (Hout f Hgs). simpl. by rewrite lookup_insert_eq.
    + intros g Hg. apply not_elem_of_cons in Hg as [Hne Hg].
      rewrite (Hout g Hg). simpl. by rewrite lookup_insert_ne.
Qed.

Lemma from_db_object_complete (device : Objects.Device)
    (db_device : Models.instance) :
  (∀ f, f ∈ fields → is_Some (Models.getitem db_device f)) →
  ∃ o, _from_db_object device db_device = Ok o ∧
       (∀ f, f ∈ fields → obj_attrs o !! f = Models.getitem db_device f) ∧
       obj_changed_fields o = ∅.
Proof.
  intros Hall. unfold _from_db_object.
  destruct (copy_fields_complete fields device db_device Hall)
    as (o & -> & Hin & _).
  exists (obj_reset_changes o). split; [done|]. by split.
Qed.

(** *** The change-set *)

Lemma assign_all_changed (l : list (string * value)) (o : Objects.Device) :
  obj_changed_fields (assign_all l o)
    = list_to_set l.*1 ∪ obj_changed_fields o.
Proof.
  unfold assign_all. revert o.
  induction l as [|[f v] l IH]; intros o; simpl; [set_solver|].
  rewrite IH. simpl. set_solver.
Qed.

Lemma assign_all_assigned (l : list (string * value)) (o : Objects.Device)
    (f : string) :
  f ∈ l.*1 → is_Some (obj_attrs (assign_all l o) !! f).
Proof.
  revert o. induction l as [|[g v] l IH]; intros o Hf; simpl in *.
  - by apply elem_of_nil in Hf.
  - destruct (decide (f ∈ l.*1)) as [Hl|Hl]; [by apply IH|].
    apply elem_of_cons in Hf as [->|Hf]; [|done].
    clear IH. unfold assign_all.
    assert (∀ o', is_Some (obj_attrs o' !! g) →
                  is_Some (obj_attrs
                    (foldl (λ o fv, setitem fv.1 fv.2 o) o' l) !! g)) as H.
    { clear. induction l as [|[h w] l IH]; intros o' Ho'; [done|].
      simpl. apply IH. simpl.
      destruct (decide (h = g)) as [->|Hne].
      - rewrite lookup_insert_eq. by eexists.
      - by rewrite lookup_insert_ne. }
    apply H. simpl. rewrite lookup_insert_eq. by eexists.
Qed.

(** C6.  [save] hands [update_device] the identifier [self.uuid] and a
    payload whose keys are exactly the fields assigned since the object
    was loaded or last saved (that is, since its change-set was last
    reset), each with its current value: a field not assigned since then
    is not in the payload.  After a successful [save] the change-set is
    empty and a further payload would be empty. *)
Theorem save_passes_changed_fields
    (S : Type) (dbapi : Api.Connection S)
    (clean : Objects.Device) (l : list (string * value)) (st : S) :
  obj_changed_fields clean = ∅ →
  let self := assign_all l clean in
  let payload := obj_get_changes self in
  dom payload = list_to_set l.*1 ∧
  (∀ f v, payload !! f = Some v ↔ f ∈ l.*1 ∧ obj_attrs self !! f = Some v) ∧
  (∀ f, f ∉ l.*1 → payload !! f = None) ∧
  save self st
    = (uuid ← getattr self "uuid";
       '(_, st') ← Api.update_device (str uuid) payload st;
       Ok (obj_reset_changes self, st')) ∧
  (∀ self' st', save self st = Ok (self', st') →
     obj_changed_fields self' = ∅ ∧ obj_get_changes self' = ∅ ∧
     obj_attrs self' = obj_attrs self).
Proof.
  intros Hclean self payload.
  assert (obj_changed_fields self = list_to_set l.*1) as Hch.
  { unfold self. rewrite assign_all_changed, Hclean. set_solver. }
  assert (∀ f v, payload !! f = Some v
                 ↔ f ∈ l.*1 ∧ obj_attrs self !! f = Some v) as Hlook.
  { intros f v. unfold payload, obj_get_changes.
    rewrite map_lookup_filter_Some. simpl. rewrite Hch.
    rewrite elem_of_list_to_set. tauto. }
  split; [|split; [done|split; [|split; [done|]]]].
  - apply set_eq. intros f. rewrite elem_of_dom, elem_of_list_to_set.
    split.
    + intros [v Hv]. by apply Hlook in Hv as [? _].
    + intros Hf. destruct (assign_all_assigned l clean f Hf) as [v Hv].
      exists v. by apply Hlook.
  - intros f Hf. destruct (payload !! f) as [v|] eqn:Hv; [|done].
    by apply Hlook in Hv as [? _].
  - intros self' st'. unfold save.
    destruct (getattr self "uuid") as [u|e]; [|done]. simpl.
    destruct (Api.update_device _ _ st) as [[o s']|e]; [|done]. simpl.
    intros [= <- <-]. split; [done|]. split; [|done].
    unfold obj_get_changes. simpl. apply map_eq. intros f.
    rewrite lookup_empty. apply map_lookup_filter_None. right.
    intros v _. simpl. set_solver.
Qed.

End domain_object.

Lemma save_passes_changed_fields_witness :
  let clean :=
    Objects.mkDevice
      {[ "uuid" := VStr "0f0e0d0c-0b0a-4900-8807-060504030201";
         "name" := VStr "sensor2" ]} ∅ in
  let self := Objects.assign_all [("name", VStr "renamed")] clean in
  dom (Objects.obj_get_changes self)
    = list_to_set [("name", VStr "renamed")].*1 ∧
  Objects.obj_get_changes self !! "uuid" = None.
Proof.
  intros clean self.
  pose proof (save_passes_changed_fields _ (sqlalchemy_backend "" 200)
                clean [("name", VStr "renamed")] [device_a; device_b]
                eq_refl) as (Hdom & _ & Hnot & _).
  split; [exact Hdom|]. apply Hnot.
  apply (bool_decide_unpack _). by vm_compute.
Defined.

(** ** The controller exception boundary *)

Section boundary.

Import Wrappers.



End boundary.


(** ** Query: coercion of the filter value *)

Section coercion.

Import QueryFilter.

Context {V : Type}.
Context (int float bool_from_string text_type parse_isotime literal_eval
         : option string → V + raised).
Context (raw : option string → V).

Local Abbreviation get_value_as_type :=
  (_get_value_as_type int float bool_from_string text_type parse_isotime
     literal_eval raw).
Local Abbreviation type_converters :=
  (_type_converters int float bool_from_string text_type parse_isotime).

Lemma raise_ClientSideError_raises {A} (msg : string) :
  is_Ok (@raise_ClientSideError A msg) = false.
Proof. reflexivity. Qed.

(** The name [ClientSideError] is not bound in the module, so the
    [raise] statements of the handlers end in a [NameError]. *)
Lemma raise_ClientSideError_NameError {A} (msg : string) :
  @raise_ClientSideError A msg
    = Raise (PyExc "NameError"
               "global name 'ClientSideError' is not defined").
Proof. reflexivity. Qed.

Lemma handler_raises (e : raised) (q : Query) (t : option string) :
  is_Ok (handler (V := V) e q t) = false.
Proof. by destruct e. Qed.

Lemma supported_converter (t : string) :
  t ∈ _supported_types →
  t ≠ "" ∧
  ∃ convert, type_converters t = Some convert ∧
    (t = "integer" ∧ convert = int ∨ t = "float" ∧ convert = float ∨
     t = "string" ∧ convert = text_type ∨
     t = "boolean" ∧ convert = bool_from_string).
Proof.
  unfold _supported_types. intros Ht.
  repeat (apply elem_of_cons in Ht as [->|Ht];
          [split; [done|]; eexists; split; [reflexivity|tauto]|]).
  by apply elem_of_nil in Ht.
Qed.

(** C9 (as amended).  With [type] the forced type or else the type of
    the query: for each of the supported types integer, float, string
    and boolean the value is converted with the converter of that type,
    the call returning what the converter returns and failing exactly
    when the converter fails; for any other non-empty type the call
    fails, and this includes datetime, which has a converter but is not
    in the list of supported types. *)
Theorem get_value_as_type_outcomes (forced_type : option string) (q : Query) :
  let type := if is_set forced_type then forced_type else type q in
  (∀ t, type = Some t → t ∈ _supported_types →
     ∃ convert, type_converters t = Some convert ∧
       (t = "integer" ∧ convert = int ∨ t = "float" ∧ convert = float ∨
        t = "string" ∧ convert = text_type ∨
        t = "boolean" ∧ convert = bool_from_string) ∧
       (∀ v, get_value_as_type forced_type q = Ok v
             ↔ convert (value q) = inl v) ∧
       (is_Ok (get_value_as_type forced_type q) = false
        ↔ ∃ e, convert (value q) = inr e)) ∧
  (∀ t, type = Some t → t ≠ "" → t ∉ _supported_types →
     is_Ok (get_value_as_type forced_type q) = false) ∧
  (type = Some "datetime" →
     type_converters "datetime" = Some parse_isotime ∧
     is_Ok (get_value_as_type forced_type q) = false).
Proof.
  intros type.
  assert (∀ t, type = Some t → t ≠ "" → t ∉ _supported_types →
            is_Ok (get_value_as_type forced_type q) = false) as Hunsupported.
  { intros t Ht Hne Hnot. unfold _get_value_as_type. fold type.
    rewrite Ht. rewrite (proj2 (String.eqb_neq t "") Hne).
    rewrite bool_decide_eq_false_2 by done. done. }
  split; [|split; [done|]].
  - intros t Ht Hsup.
    destruct (supported_converter t Hsup) as (Hne & convert & Hc & Hwhich).
    exists convert. split; [done|]. split; [done|].
    unfold _get_value_as_type. fold type.
    rewrite Ht. rewrite (proj2 (String.eqb_neq t "") Hne).
    rewrite bool_decide_eq_true_2 by done. simpl. rewrite Hc.
    destruct (convert (value q)) as [v|e] eqn:Hv.
    + split.
      * intros w. split; [by intros [= ->]|by intros [= ->]].
      * split; [done|]. by intros [e He].
    + pose proof (handler_raises e q (Some t)) as Hr.
      split.
      * intros w. split; [|done]. intros Hok. by rewrite Hok in Hr.
      * split; [by exists e|done].
  - intros Ht. split; [reflexivity|].
    apply (Hunsupported "datetime" Ht); [done|].
    unfold _supported_types. apply (bool_decide_unpack _). by vm_compute.
Qed.

End coercion.

(** C9, the claim as stated fails: a query of type datetime is not
    converted, even with a converter for datetime (and for every other
    type) that accepts every value. *)
Lemma get_value_as_type_datetime_counterexample :
  let accept : option string → value + QueryFilter.raised :=
    λ o, inl (VStr (default "" o)) in
  let raw : option string → value := λ o, VStr (default "" o) in
  let q :=
    QueryFilter.mkQuery (Some "timestamp") (Some "ge")
      (Some "2014-01-01T00:00:00") (Some "datetime") in
  QueryFilter._type_converters accept accept accept accept accept
    "datetime" = Some accept ∧
  accept (QueryFilter.value q) = inl (VStr "2014-01-01T00:00:00") ∧
  is_Ok (QueryFilter._get_value_as_type accept accept accept accept accept
           accept raw None q) = false.
Proof. by vm_compute. Qed.

Lemma get_value_as_type_outcomes_witness :
  let accept : option string → value + QueryFilter.raised :=
    λ o, inl (VStr (default "" o)) in
  let reject : option string → value + QueryFilter.raised :=
    λ _, inr QueryFilter.ValueError in
  let raw : option string → value := λ o, VStr (default "" o) in
  let q (t : string) :=
    QueryFilter.mkQuery (Some "name") None (Some "sensor1") (Some t) in
  (∃ convert,
     QueryFilter._type_converters reject reject reject accept accept
       "string" = Some convert ∧
     (∀ v, QueryFilter._get_value_as_type reject reject reject accept
             accept reject raw None (q "string") = Ok v
           ↔ convert (Some "sensor1") = inl v)) ∧
  is_Ok (QueryFilter._get_value_as_type reject reject reject accept accept
           reject raw None (q "uuid")) = false ∧
  is_Ok (QueryFilter._get_value_as_type reject reject reject accept accept
           reject raw None (q "datetime")) = false.
Proof.
  intros accept reject raw q. split; [|split].
  - destruct (proj1 (get_value_as_type_outcomes reject reject reject accept
                       accept reject raw None (q "string"))
                "string" eq_refl) as (convert & Hc & _ & Hok & _).
    + apply (bool_decide_unpack _). by vm_compute.
    + exists convert. split; [exact Hc|exact Hok].
  - refine (proj1 (proj2 (get_value_as_type_outcomes reject reject reject
              accept accept reject raw None (q "uuid"))) "uuid" eq_refl _ _).
    + done.
    + apply (bool_decide_unpack _). by vm_compute.
  - refine (proj2 (proj2 (proj2 (get_value_as_type_outcomes reject reject
              reject accept accept reject raw None (q "datetime")))
              eq_refl)).
Defined.

(** ** Pagination *)

(** *** The order of stored values *)

Lemma value_compare_antisym (a b : value) :
  value_compare a b = CompOpp (value_compare b a).
Proof.
  destruct a, b; simpl; try done.
  - apply Z.compare_antisym.
  - apply String.compare_antisym.
Qed.

Lemma value_compare_eq (a b : value) : value_compare a b = Eq ↔ a = b.
Proof.
  destruct a as [|x|s], b as [|y|t]; simpl; try done.
  - rewrite Z.compare_eq_iff. split; congruence.
  - split.
    + intros H. f_equal. by apply String.compare_eq_iff.
    + intros [= ->]. by apply String_as_OT.cmp_eq.
Qed.

Lemma value_compare_refl (a : value) : value_compare a a = Eq.
Proof. by apply value_compare_eq. Qed.

Lemma value_compare_trans (a b c : value) :
  value_compare a b = Lt → value_compare b c = Lt → value_compare a c = Lt.
Proof.
  destruct a as [|x|s], b as [|y|t], c as [|z|u]; simpl; try done.
  - rewrite !Z.compare_lt_iff. lia.
  - intros H1%String_as_OT.cmp_lt H2%String_as_OT.cmp_lt.
    apply String_as_OT.cmp_lt. by apply String_as_OT.lt_trans with t.
Qed.

(** *** The order of rows under ORDER BY *)

(** Descending order is ascending order read backwards. *)
Lemma rows_compare_desc (keys : list string) (a b : Device) :
  rows_compare true keys a b = rows_compare false keys b a.
Proof.
  induction keys as [|k ks IH]; simpl; [done|].
  rewrite (value_compare_antisym (col k b) (col k a)).
  by destruct (value_compare (col k a) (col k b)).
Qed.

Lemma rows_compare_asc_antisym (keys : list string) (a b : Device) :
  rows_compare false keys a b = CompOpp (rows_compare false keys b a).
Proof.
  induction keys as [|k ks IH]; simpl; [done|].
  rewrite (value_compare_antisym (col k b) (col k a)).
  by destruct (value_compare (col k a) (col k b)).
Qed.

Lemma rows_compare_antisym desc (keys : list string) (a b : Device) :
  rows_compare desc keys a b = CompOpp (rows_compare desc keys b a).
Proof.
  destruct desc; rewrite ?rows_compare_desc; apply rows_compare_asc_antisym.
Qed.

(** Rows compare equal exactly when they agree on every sort key. *)
Lemma rows_compare_Eq desc (keys : list string) (a b : Device) :
  rows_compare desc keys a b = Eq ↔ ∀ k, k ∈ keys → col k a = col k b.
Proof.
  induction keys as [|k ks IH]; simpl.
  - split; [|done]. intros _ k Hk. by apply elem_of_nil in Hk.
  - destruct (value_compare (col k a) (col k b)) eqn:Hc.
    + rewrite IH. apply value_compare_eq in Hc. split.
      * intros H k' [->|Hk']%elem_of_cons; [done|by apply H].
      * intros H k' Hk'. apply H. by right.
    + split; [by destruct desc|]. intros H.
      assert (col k a = col k b) as Heq by (apply H; left).
      apply value_compare_eq in Heq. congruence.
    + split; [by destruct desc|]. intros H.
      assert (col k a = col k b) as Heq by (apply H; left).
      apply value_compare_eq in Heq. congruence.
Qed.

Lemma rows_compare_asc_trans (keys : list string) (a b c : Device) :
  rows_compare false keys a b = Lt → rows_compare false keys b c = Lt →
  rows_compare false keys a c = Lt.
Proof.
  induction keys as [|k ks IH]; simpl; [done|].
  destruct (value_compare (col k a) (col k b)) eqn:Hab; [| |done].
  - apply value_compare_eq in Hab. rewrite Hab.
    destruct (value_compare (col k b) (col k c)); [|done|done].
    apply IH.
  - intros _.
    destruct (value_compare (col k b) (col k c)) eqn:Hbc; [| |done].
    + apply value_compare_eq in Hbc. rewrite <- Hbc, Hab. done.
    + intros _. by rewrite (value_compare_trans _ _ _ Hab Hbc).
Qed.

Lemma rows_compare_trans desc (keys : list string) (a b c : Device) :
  rows_compare desc keys a b = Lt → rows_compare desc keys b c = Lt →
  rows_compare desc keys a c = Lt.
Proof.
  destruct desc; rewrite ?rows_compare_desc.
  - intros H1 H2. by apply rows_compare_asc_trans with b.
  - apply rows_compare_asc_trans.
Qed.

(** Rows that agree on the sort keys compare alike with a third row. *)
Lemma rows_compare_Eq_l desc (keys : list string) (a b c : Device) :
  rows_compare desc keys a b = Eq →
  rows_compare desc keys a c = rows_compare desc keys b c.
Proof.
  intros H. pose proof (proj1 (rows_compare_Eq _ _ _ _) H) as Hcols.
  clear H. induction keys as [|k ks IH]; simpl; [done|].
  rewrite (Hcols k) by left. rewrite IH; [done|].
  intros k' Hk'. apply Hcols. by right.
Qed.

Lemma rows_compare_Eq_r desc (keys : list string) (a b c : Device) :
  rows_compare desc keys a b = Eq →
  rows_compare desc keys c a = rows_compare desc keys c b.
Proof.
  intros H. rewrite (rows_compare_antisym desc keys c a),
    (rows_compare_antisym desc keys c b).
  by rewrite (rows_compare_Eq_l desc keys a b c H).
Qed.

Global Instance row_le_total desc keys : Total (row_le desc keys).
Proof.
  intros a b. unfold row_le. rewrite (rows_compare_antisym desc keys b a).
  destruct (rows_compare desc keys a b); simpl; [left|left|right]; done.
Qed.

Global Instance row_le_trans desc keys : Transitive (row_le desc keys).
Proof.
  intros a b c. unfold row_le. intros Hab Hbc.
  destruct (rows_compare desc keys a b) eqn:H1; [| |done].
  - by rewrite (rows_compare_Eq_l _ _ _ _ _ H1).
  - destruct (rows_compare desc keys b c) eqn:H2; [| |done].
    + by rewrite <- (rows_compare_Eq_r _ _ _ _ _ H2), H1.
    + by rewrite (rows_compare_trans _ _ _ _ _ H1 H2).
Qed.

(** *** The marker condition *)

Lemma existsb_seq_shift (f : nat → bool) (s n : nat) :
  existsb f (seq (S s) n) = existsb (λ i, f (S i)) (seq s n).
Proof.
  revert s. induction n as [|n IH]; intros s; simpl; [done|].
  by rewrite IH.
Qed.

Lemma existsb_andb_const (b : bool) (g : nat → bool) (l : list nat) :
  existsb (λ i, b && g i) l = b && existsb g l.
Proof.
  induction l as [|i l IH]; simpl.
  - by rewrite andb_false_r.
  - rewrite IH. by destruct b, (g i).
Qed.

Lemma existsb_pointwise (f g : nat → bool) (l : list nat) :
  (∀ i, f i = g i) → existsb f l = existsb g l.
Proof.
  intros Hfg. induction l as [|i l IH]; simpl; [done|].
  by rewrite Hfg, IH.
Qed.

(** The disjunction of the criteria, read key by key: beyond the marker
    on the first key, or equal to it there and beyond it on the rest. *)
Lemma after_marker_cons desc (k : string) (ks : list string)
    (marker r : Device) :
  after_marker desc (k :: ks) marker r
    = (if desc then sql_lt (col k r) (col k marker)
       else sql_gt (col k r) (col k marker))
      || (sql_eq (col k r) (col k marker) && after_marker desc ks marker r).
Proof.
  unfold after_marker. cbn [length seq existsb].
  rewrite existsb_seq_shift.
  f_equal. rewrite <- existsb_andb_const.
  apply existsb_pointwise. intros i.
  unfold criterion. cbn [take forallb lookup list_lookup].
  by rewrite andb_assoc.
Qed.

Lemma after_marker_nil desc (marker r : Device) :
  after_marker desc [] marker r = false.
Proof. reflexivity. Qed.




(** *** Sorted listings *)


Lemma NoDup_fmap_filter {A B} (f : A → B) (P : A → Prop)
    `{∀ x, Decision (P x)} (l : list A) :
  NoDup (f <$> l) → NoDup (f <$> filter P l).
Proof.
  induction l as [|a l IH]; [done|].
  rewrite fmap_cons. intros [Hnotin Hnd]%NoDup_cons.
  rewrite filter_cons. destruct (decide (P a)); [|by apply IH].
  rewrite fmap_cons. apply NoDup_cons. split; [|by apply IH].
  intros Hin. apply Hnotin.
  apply list_elem_of_fmap in Hin as (x & -> & Hx).
  apply list_elem_of_fmap. exists x. split; [done|].
  by apply list_elem_of_filter in Hx as [_ ?].
Qed.

Lemma id_in_sort_keys (sort_key : option string) :
  "id" ∈ sort_keys_for sort_key.
Proof.
  unfold sort_keys_for. destruct sort_key as [k|]; [|by left].
  destruct (_ && _); [right|]; by left.
Qed.



(** *** get_device_list *)

Lemma add_devices_filters_Ok (tbl query : table)
    (filters : option (gmap string value)) :
  _add_devices_filters tbl filters = Ok query →
  (∀ d, d ∈ query → d ∈ tbl) ∧
  (NoDup (id <$> tbl) → NoDup (id <$> query)).
Proof.
  unfold _add_devices_filters.
  destruct (default ∅ filters !! "image_id"); [done|].
  destruct (default ∅ filters !! "name") as [v|]; intros [= <-].
  - split.
    + intros d Hd. by apply filter_by_elem in Hd as [_ ?].
    + apply NoDup_fmap_filter.
  - done.
Qed.

(** A listing that succeeds is the ordered query, cut after the marker
    and at the limit. *)
Lemma get_device_list_Ok_inv filters limit marker sort_key sort_dir
    (tbl res : table) :
  get_device_list filters limit marker sort_key sort_dir tbl = Ok res →
  ∃ query desc,
    _add_devices_filters tbl filters = Ok query ∧
    sort_direction sort_dir = Ok desc ∧
    forallb is_column (sort_keys_for sort_key) = true.
Proof.
  unfold get_device_list, _paginate_query, paginate_query.
  destruct (_add_devices_filters tbl filters) as [query|e]; [|done].
  simpl. destruct (sort_direction sort_dir) as [desc|e]; [|done]. simpl.
  destruct (forallb is_column _) eqn:Hk; [|done].
  intros _. by exists query, desc.
Qed.

Lemma marker_value_None (sort_keys : list string) (m : Device) :
  existsb (λ k, bool_decide (col k m = VNone)) sort_keys = true
  ↔ ∃ k, k ∈ sort_keys ∧ col k m = VNone.
Proof.
  rewrite existsb_exists. split; intros (k & Hk & Hnone); exists k.
  - apply bool_decide_eq_true in Hnone. by rewrite list_elem_of_In.
  - rewrite bool_decide_eq_true. by rewrite <- list_elem_of_In.
Qed.

Lemma marker_values_not_None (sort_keys : list string)
    (marker : option Device) :
  (∀ m k, marker = Some m → k ∈ sort_keys → col k m ≠ VNone) →
  ∀ m, marker = Some m →
       existsb (λ k, bool_decide (col k m = VNone)) sort_keys = false.
Proof.
  intros Hm m ->. apply not_true_is_false. intros Hex.
  apply marker_value_None in Hex as (k & Hk & Hnone).
  by apply (Hm m k eq_refl).
Qed.

Lemma get_device_list_eq filters limit marker sort_key sort_dir
    (tbl query : table) desc :
  _add_devices_filters tbl filters = Ok query →
  sort_direction sort_dir = Ok desc →
  forallb is_column (sort_keys_for sort_key) = true →
  (∀ m k, marker = Some m → k ∈ sort_keys_for sort_key → col k m ≠ VNone) →
  get_device_list filters limit marker sort_key sort_dir tbl
    = Ok (let ordered := order_by desc (sort_keys_for sort_key) query in
          let beyond :=
            match marker with
            | Some m =>
                filter (λ r, after_marker desc (sort_keys_for sort_key)
                               m r = true) ordered
            | None => ordered
            end in
          match limit with
          | Some n => take n beyond
          | None => beyond
          end).
Proof.
  intros Hq Hd Hk Hm.
  unfold get_device_list, _paginate_query, paginate_query.
  rewrite Hq. simpl. rewrite Hd. simpl. rewrite Hk. simpl.
  destruct marker as [m|]; [|done].
  by rewrite (marker_values_not_None _ _ Hm m eq_refl).
Qed.




(** ** The operations keep the table consistent *)

Lemma consistent_app_row (tbl : table) (d : Device) (z : Z) :
  consistent tbl → id d = VInt z →
  id_taken (id d) tbl = false → uuid_taken (uuid d) tbl = false →
  consistent (tbl ++ [d])%list.
Proof.
  intros (Hint & Hids & Huuids) Hz Hid Hu. split; [|split].
  - apply Forall_app. split; [done|]. constructor; [by exists z|done].
  - rewrite fmap_app. apply NoDup_app. split; [done|]. split.
    + intros i Hi Hi'. apply list_elem_of_singleton in Hi'. subst i.
      apply list_elem_of_fmap in Hi as (r & Hr & Hin).
      by apply (proj1 (id_taken_false _ _) Hid r).
    + apply NoDup_singleton.
  - rewrite fmap_app, filter_app. apply NoDup_app. split; [done|]. split.
    + intros u Hin Hin'.
      apply list_elem_of_filter in Hin as [Hnn Hin].
      apply list_elem_of_filter in Hin' as [_ Hin'].
      apply list_elem_of_singleton in Hin'. subst u.
      apply list_elem_of_fmap in Hin as (r & Hr & Hin).
      assert (uuid_taken (uuid d) tbl = true) as Ht; [|congruence].
      apply uuid_taken_true. split; [done|]. by exists r.
    + simpl. rewrite filter_cons, filter_nil.
      destruct (decide _); [apply NoDup_singleton|apply NoDup_nil_2].
Qed.

Lemma insert_consistent (d d' : Device) (now : Z) (tbl tbl' : table) :
  consistent tbl → insert d now tbl = Ok (d', tbl') → consistent tbl'.
Proof.
  intros Hc. unfold insert.
  destruct (new_key d tbl) as [i|e] eqn:Hi; simpl; [|done].
  destruct (new_key_Ok _ _ _ Hi) as [z ->].
  destruct (id_taken _ tbl) eqn:Hid; [done|].
  destruct (uuid_taken _ tbl) eqn:Hu; [done|]. simpl.
  intros [= <- <-]. by apply (consistent_app_row _ _ z).
Qed.

Lemma create_device_consistent (values : gmap string value) (gen : string)
    (now : Z) (tbl tbl' : table) (o : instance) :
  consistent tbl → create_device values gen now tbl = Ok (o, tbl') →
  consistent tbl'.
Proof.
  intros Hc. unfold create_device.
  destruct (insert _ now tbl) as [[d t]|e] eqn:Hi.
  - intros [= <- <-]. by apply (insert_consistent _ _ _ _ _ Hc Hi).
  - by destruct (bool_decide _).
Qed.

Lemma NoDup_filter_fmap_filter {A B} (f : A → B) (Q : B → Prop)
    `{∀ b, Decision (Q b)} (P : A → Prop) `{∀ a, Decision (P a)}
    (l : list A) :
  NoDup (filter Q (f <$> l)) → NoDup (filter Q (f <$> filter P l)).
Proof.
  induction l as [|a l IH]; [done|].
  rewrite fmap_cons, (filter_cons P).
  destruct (decide (P a)) as [Ha|Ha].
  - rewrite fmap_cons, !(filter_cons Q).
    destruct (decide (Q (f a))) as [Hq|Hq]; [|done].
    intros [Hnotin Hnd]%NoDup_cons. apply NoDup_cons.
    split; [|by apply IH]. intros Hin. apply Hnotin.
    apply list_elem_of_filter in Hin as [_ Hin].
    apply list_elem_of_filter. split; [done|].
    apply list_elem_of_fmap in Hin as (x & -> & Hx).
    apply list_elem_of_fmap. exists x. split; [done|].
    by apply list_elem_of_filter in Hx as [_ ?].
  - rewrite (filter_cons Q).
    destruct (decide (Q (f a))); [|done].
    intros [_ Hnd]%NoDup_cons. by apply IH.
Qed.

Lemma consistent_filter (P : Device → Prop) `{∀ d, Decision (P d)}
    (tbl : table) :
  consistent tbl → consistent (filter P tbl).
Proof.
  intros (Hint & Hids & Huuids). split; [|split].
  - apply Forall_forall. intros d [_ Hd]%list_elem_of_filter.
    rewrite Forall_forall in Hint. by apply Hint.
  - by apply NoDup_fmap_filter.
  - by apply NoDup_filter_fmap_filter.
Qed.

Lemma destroy_device_consistent (device_id : string) (tbl tbl' : table) :
  consistent tbl → destroy_device device_id tbl = Ok ((), tbl') →
  consistent tbl'.
Proof.
  intros Hc. unfold destroy_device.
  destruct (add_identity_filter tbl device_id) as [query|e]; [|done].
  simpl. case_bool_decide; [done|]. intros [= <-].
  by apply consistent_filter.
Qed.

Lemma consistent_Permutation (l l' : table) :
  l ≡ₚ l' → consistent l → consistent l'.
Proof.
  intros Hp (Hint & Hids & Huuids). split; [|split].
  - by rewrite <- Hp.
  - by rewrite <- Hp.
  - by rewrite <- Hp.
Qed.

(** A consistent table splits around each of its rows, the other rows
    having other primary keys. *)
Lemma consistent_split (tbl : table) (old : Device) :
  consistent tbl → old ∈ tbl →
  ∃ l1 l2, tbl = (l1 ++ (old :: l2))%list ∧
           ∀ r, r ∈ (l1 ++ l2)%list → id r ≠ id old.
Proof.
  intros Hc Hold.
  assert (filter (λ r, id r = id old) tbl = [old]) as Hf.
  { apply length_le_1_elem; [|by apply list_elem_of_filter].
    destruct Hc as (Hint & Hids & _).
    apply (filter_key_unique id (λ _, True) _ tbl (id old)); [|done|done].
    by rewrite filter_all. }
  destruct (filter_singleton_split _ tbl old Hf) as (l1 & l2 & -> & _ & Hr).
  by exists l1, l2.
Qed.

Lemma flush_consistent (old new d : Device) (now : Z) (tbl tbl' : table) :
  consistent tbl → old ∈ tbl →
  flush old new now tbl = Ok (d, tbl') → consistent tbl'.
Proof.
  intros Hc Hold. unfold flush. case_bool_decide as Hsame.
  { by intros [= <- <-]. }
  destruct (id new) as [|z|] eqn:Hz; [done| |done].
  destruct (id_taken _ _) eqn:Hid; [done|].
  destruct (uuid_taken _ _) eqn:Hu; [done|]. simpl.
  intros [= <- <-].
  destruct (consistent_split tbl old Hc Hold) as (l1 & l2 & -> & Hne).
  assert (filter (λ r, id r ≠ id old) (l1 ++ (old :: l2))%list
          = (l1 ++ l2)%list) as Hothers.
  { rewrite filter_app, filter_cons_False by (intros H; by apply H).
    rewrite <- filter_app. by apply filter_all. }
  rewrite Hothers in Hid, Hu.
  set (new' := mkDevice _ _ _ _ _ _ _ _).
  assert ((λ r, if bool_decide (id r = id old) then new' else r)
            <$> (l1 ++ (old :: l2))%list = (l1 ++ (new' :: l2))%list) as ->.
  { rewrite fmap_app, fmap_cons.
    rewrite bool_decide_eq_true_2 by done.
    f_equal; [|f_equal].
    - rewrite <- (list_fmap_id l1) at 2. apply list_fmap_ext.
      intros i r Hr. simpl. rewrite bool_decide_eq_false_2; [done|].
      apply Hne, elem_of_app. left. apply list_elem_of_lookup. by exists i.
    - rewrite <- (list_fmap_id l2) at 2. apply list_fmap_ext.
      intros i r Hr. simpl. rewrite bool_decide_eq_false_2; [done|].
      apply Hne, elem_of_app. right. apply list_elem_of_lookup.
      by exists i. }
  apply (consistent_Permutation ((l1 ++ l2) ++ [new'])%list).
  { rewrite <- app_assoc. apply Permutation_app_head.
    symmetry. apply Permutation_cons_append. }
  apply (consistent_app_row _ _ z); [|done|done|done].
  rewrite <- Hothers. by apply consistent_filter.
Qed.

Lemma update_device_consistent (device_id : string)
    (values : gmap string value) (now : Z) (tbl tbl' : table)
    (o : instance) :
  consistent tbl → update_device device_id values now tbl = Ok (o, tbl') →
  consistent tbl'.
Proof.
  intros Hc. unfold update_device. case_bool_decide; [done|].
  unfold _do_update_device.
  destruct (add_identity_filter tbl device_id) as [query|e] eqn:Hq; [|done].
  simpl. destruct query as [|ref [|? ?]]; [done| |done]. simpl.
  destruct (flush ref _ now tbl) as [[d t]|e] eqn:Hf; [|done]. simpl.
  intros [= <- <-]. apply (flush_consistent _ _ _ _ _ _ Hc) in Hf; [done|].
  apply (add_identity_filter_elem _ _ _ _ Hq). by left.
Qed.

(** * Further properties *)

(** ** Lookups in the table *)

Lemma one_spec (device : string) (q : table) :
  (length q ≤ 1)%nat →
  (∀ d, one device q = Ok d ↔ d ∈ q) ∧
  ((∀ d, d ∉ q) → one device q = Raise (mkDeviceNotFound device)) ∧
  (∀ e, one device q = Raise e → e = mkDeviceNotFound device ∧ q = []).
Proof.
  destruct q as [|a [|b q]]; simpl; intros Hlen; [| |lia].
  - split; [|split]; [|done|by intros e [= <-]].
    intros d. split; [done|]. intros Hd. by apply elem_of_nil in Hd.
  - split; [|split]; [| |done].
    + intros d. rewrite list_elem_of_singleton. split; [by intros [= ->]|].
      by intros ->.
    + intros Hno. destruct (Hno a). by left.
Qed.



(** ** create_device followed by other calls *)

Lemma column_None (k : string) (d : Device) :
  is_column k = false → column k d = None.
Proof.
  unfold is_column, columns. intros Hk%bool_decide_eq_false.
  unfold column.
  destruct (String.eqb_spec k "created_at") as [->|_]; [set_solver|].
  destruct (String.eqb_spec k "updated_at") as [->|_]; [set_solver|].
  destruct (String.eqb_spec k "id") as [->|_]; [set_solver|].
  destruct (String.eqb_spec k "project_id") as [->|_]; [set_solver|].
  destruct (String.eqb_spec k "user_id") as [->|_]; [set_solver|].
  destruct (String.eqb_spec k "uuid") as [->|_]; [set_solver|].
  destruct (String.eqb_spec k "name") as [->|_]; [set_solver|].
  destruct (String.eqb_spec k "desc") as [->|_]; [set_solver|].
  done.
Qed.

Lemma insert_Ok_inv (d d' : Device) (now : Z) (tbl tbl' : table) :
  insert d now tbl = Ok (d', tbl') →
  tbl' = (tbl ++ [d'])%list ∧ uuid d' = uuid d ∧
  (∃ z, id d' = VInt z) ∧
  id_taken (id d') tbl = false ∧ uuid_taken (uuid d') tbl = false.
Proof.
  unfold insert. destruct (new_key d tbl) as [i|e] eqn:Hi; simpl; [|done].
  destruct (new_key_Ok _ _ _ Hi) as [z ->].
  destruct (id_taken _ tbl) eqn:Hid; [done|].
  destruct (uuid_taken _ tbl) eqn:Hu; [done|]. simpl.
  intros [= <- <-]. simpl. eauto 10.
Qed.

(** What a successful [create_device] has done. *)
Lemma create_device_Ok_inv (values : gmap string value) (gen : string)
    (now : Z) (tbl tbl' : table) (o : instance) :
  create_device values gen now tbl = Ok (o, tbl') →
  tbl' = (tbl ++ [row o])%list ∧
  uuid (row o) = (if truthy (default VNone (values !! "uuid"))
                  then default VNone (values !! "uuid") else VStr gen) ∧
  uuid (row o) ≠ VNone ∧
  (∃ z, id (row o) = VInt z) ∧
  id_taken (id (row o)) tbl = false ∧
  uuid_taken (uuid (row o)) tbl = false ∧
  (∀ k, is_column k = false → getitem o k = values !! k).
Proof.
  unfold create_device.
  set (given := default VNone (values !! "uuid")).
  set (values' := if truthy given then values
                  else <["uuid" := VStr gen]> values).
  destruct (insert _ now tbl) as [[d t]|e] eqn:Hi;
    [|by destruct (bool_decide _)].
  intros [= <- <-]. simpl.
  destruct (insert_Ok_inv _ _ _ _ _ Hi) as (-> & Hu & Hz & Hid & Hut).
  assert (uuid d = if truthy given then given else VStr gen) as Hud.
  { rewrite Hu. simpl. unfold pick.
    pose proof (create_device_row_uuid values gen) as H. simpl in H.
    exact H. }
  split; [done|]. split; [done|]. split.
  { rewrite Hud. destruct (truthy given) eqn:Ht; [|done].
    by apply truthy_not_None. }
  split; [done|]. split; [done|]. split; [done|].
  intros k Hk. unfold getitem. simpl.
  rewrite (column_None k d Hk).
  rewrite lookup_union, lookup_empty, map_lookup_filter.
  assert (values' !! k = values !! k) as ->.
  { unfold values'. destruct (truthy given); [done|].
    apply lookup_insert_ne. intros <-. done. }
  destruct (values !! k) as [v|]; simpl; [|done].
  rewrite option_guard_True by done. done.
Qed.


(** On a consistent table a lookup by a uuid that is not NULL, or by an
    integer id, returns a device exactly when it is the stored device
    with that key. *)
Lemma get_device_by_uuid_Ok (tbl : table) (u : value) (d : Device) :
  consistent tbl → u ≠ VNone →
  get_device_by_uuid u tbl = Ok d ↔ d ∈ tbl ∧ uuid d = u.
Proof.
  intros (_ & _ & Hnd) Hnn. unfold get_device_by_uuid, filter_by_uuid.
  assert (length (filter_by "uuid" u tbl) ≤ 1)%nat as Hlen.
  { unfold filter_by.
    apply (filter_key_unique uuid (λ u, u ≠ VNone) _ _ u); [done|done|].
    unfold sql_eq. intros x Hx. by apply bool_decide_eq_true in Hx. }
  rewrite (proj1 (one_spec _ _ Hlen)), filter_by_elem.
  unfold col. simpl. tauto.
Qed.




Lemma uuid_like_not_int_like (val : string) :
  Utils.is_uuid_like val = true → Utils.is_int_like val = false.
Proof.
  intros Hu. destruct (Utils.is_int_like val) eqn:Hi; [|done].
  by rewrite (int_like_not_uuid_like _ Hi) in Hu.
Qed.

Lemma id_taken_not_elem (d : Device) (tbl : table) :
  id_taken (id d) tbl = false → d ∉ tbl.
Proof.
  intros Hid Hd. by apply (proj1 (id_taken_false _ _) Hid d).
Qed.

(** X3.  Creating a device under a UUID-shaped uuid and destroying it by
    that uuid gives back the table as it was before. *)
Theorem create_then_destroy (values : gmap string value) (gen : string)
    (now : Z) (tbl tbl' : table) (o : instance) (u : string) :
  consistent tbl →
  create_device values gen now tbl = Ok (o, tbl') →
  uuid (row o) = VStr u → Utils.is_uuid_like u = true →
  destroy_device u tbl' = Ok ((), tbl).
Proof.
  intros Hc Hcreate Hu Hshape.
  pose proof (create_device_consistent _ _ _ _ _ _ Hc Hcreate) as Hc'.
  destruct (create_device_Ok_inv _ _ _ _ _ _ Hcreate)
    as (-> & _ & _ & _ & Hid & _ & _).
  pose proof (id_taken_not_elem _ _ Hid) as Hnew.
  unfold destroy_device, add_identity_filter.
  rewrite (uuid_like_not_int_like _ Hshape), Hshape. simpl.
  assert (filter_by_uuid (VStr u) (tbl ++ [row o])%list = [row o]) as ->.
  { apply length_le_1_elem; [by apply consistent_uuid_unique|].
    apply filter_by_elem. split; [done|].
    apply elem_of_app. right. by apply list_elem_of_singleton. }
  simpl. do 2 f_equal.
  rewrite filter_app, filter_cons_False
    by (intros Hx; apply Hx; by apply list_elem_of_singleton).
  rewrite filter_nil, app_nil_r. apply filter_all.
  intros x Hx Hxo. apply list_elem_of_singleton in Hxo. by subst x.
Qed.

Lemma create_then_destroy_witness :
  ∃ o tbl',
    create_device {[ "name" := VStr "sensor3" ]}
      "7d2f0c1e-5a4b-4c3d-9e8f-001122334455" 300 [device_a; device_b]
      = Ok (o, tbl') ∧
    destroy_device "7d2f0c1e-5a4b-4c3d-9e8f-001122334455" tbl'
      = Ok ((), [device_a; device_b]).
Proof.
  eexists _, _. split; [reflexivity|].
  exact (create_then_destroy {[ "name" := VStr "sensor3" ]}
           "7d2f0c1e-5a4b-4c3d-9e8f-001122334455" 300
           [device_a; device_b] _ _ "7d2f0c1e-5a4b-4c3d-9e8f-001122334455"
           consistent_a_b eq_refl eq_refl eq_refl).
Defined.

Lemma created_device_found (values : gmap string value) (gen : string)
    (now : Z) (tbl tbl' : table) (o : instance) :
  consistent tbl → create_device values gen now tbl = Ok (o, tbl') →
  get_device_by_uuid (uuid (row o)) tbl' = Ok (row o).
Proof.
  intros Hc Hcreate.
  pose proof (create_device_consistent _ _ _ _ _ _ Hc Hcreate) as Hc'.
  destruct (create_device_Ok_inv _ _ _ _ _ _ Hcreate)
    as (-> & _ & Hnn & _).
  apply get_device_by_uuid_Ok; [done|done|]. split; [|done].
  apply elem_of_app. right. by apply list_elem_of_singleton.
Qed.

(** X4.  [create_device] takes any truthy uuid, [destroy_device] and
    [update_device] only identifiers of a valid shape: a device created
    under a uuid that is neither integer-shaped nor UUID-shaped is
    stored and found by [get_device_by_uuid], but can be neither
    destroyed nor updated under that uuid, both calls raising
    [InvalidIdentity]. *)
Theorem create_unshaped_uuid (values : gmap string value) (gen : string)
    (now : Z) (tbl tbl' : table) (o : instance) (u : string) :
  consistent tbl →
  values !! "uuid" = Some (VStr u) → u ≠ "" →
  Utils.is_int_like u = false → Utils.is_uuid_like u = false →
  create_device values gen now tbl = Ok (o, tbl') →
  get_device_by_uuid (VStr u) tbl' = Ok (row o) ∧
  destroy_device u tbl' = Raise (mkInvalidIdentity u) ∧
  (∀ vals t, "uuid" ∉ dom vals →
     update_device u vals t tbl' = Raise (mkInvalidIdentity u)).
Proof.
  intros Hc Hv Hne Hint Huuid Hcreate.
  pose proof (created_device_found values gen now tbl tbl' o Hc Hcreate)
    as Hget.
  destruct (create_device_Ok_inv _ _ _ _ _ _ Hcreate)
    as (_ & Hu & _).
  rewrite Hv in Hu. simpl in Hu.
  assert (String.eqb u "" = false) as Hnb by (by apply String.eqb_neq).
  rewrite Hnb in Hu. simpl in Hu. rewrite Hu in Hget.
  split; [done|]. split.
  - unfold destroy_device, add_identity_filter. by rewrite Hint, Huuid.
  - intros vals t Hno. unfold update_device, _do_update_device,
      add_identity_filter.
    rewrite bool_decide_eq_false_2 by done. by rewrite Hint, Huuid.
Qed.

Lemma create_unshaped_uuid_witness :
  ∃ o tbl',
    create_device {[ "uuid" := VStr "sensor-3" ]} "unused" 300
      [device_a; device_b] = Ok (o, tbl') ∧
    get_device_by_uuid (VStr "sensor-3") tbl' = Ok (row o) ∧
    destroy_device "sensor-3" tbl' = Raise (mkInvalidIdentity "sensor-3").
Proof.
  eexists _, _. split; [reflexivity|].
  assert ("sensor-3" ≠ "") as Hne by done.
  assert (({[ "uuid" := VStr "sensor-3" ]} : gmap string value) !! "uuid"
          = Some (VStr "sensor-3")) as Hv by reflexivity.
  destruct (create_unshaped_uuid {[ "uuid" := VStr "sensor-3" ]} "unused"
              300 [device_a; device_b] _ _ "sensor-3" consistent_a_b
              Hv Hne eq_refl eq_refl eq_refl)
    as (Hget & Hdestroy & _).
  split; [exact Hget|exact Hdestroy].
Defined.

(** ** Identifiers that look like integers *)

(** X5.  For an integer-shaped identifier the device destroyed is the
    one whose primary key the identifier denotes: what remains of the
    table are exactly the rows with another [id], so a device that
    carries the same string as its uuid stays. *)
Theorem destroy_by_integer_identifier (device_id : string)
    (tbl tbl' : table) :
  Utils.is_int_like device_id = true →
  destroy_device device_id tbl = Ok ((), tbl') →
  tbl' = filter (λ d, id d ≠ VInt (Utils.int_of device_id)) tbl ∧
  (∀ d, d ∈ tbl → uuid d = VStr device_id →
        id d ≠ VInt (Utils.int_of device_id) → d ∈ tbl').
Proof.
  intros Hint. unfold destroy_device, add_identity_filter. rewrite Hint.
  simpl. case_bool_decide; [done|]. intros [= <-].
  unfold filter_by_id, integer_param. rewrite Hint.
  assert (filter (λ d, d ∉ filter_by "id" (VInt (Utils.int_of device_id)) tbl)
            tbl
          = filter (λ d, id d ≠ VInt (Utils.int_of device_id)) tbl) as Heq.
  { apply filter_ext_elem. intros d Hd. rewrite filter_by_elem.
    unfold col. simpl. tauto. }
  split; [done|].
  intros d Hd _ Hne. rewrite Heq. by apply list_elem_of_filter.
Qed.

(** A device with id 1 whose uuid is the string ["2"], next to the
    device with id 2. *)
Lemma destroy_by_integer_identifier_witness :
  let shadow :=
    mkDevice (VInt 100) VNone (VInt 1) VNone VNone (VStr "2") VNone VNone in
  [shadow] = filter (λ d, id d ≠ VInt (Utils.int_of "2")) [shadow; device_b]
  ∧ shadow ∈ [shadow].
Proof.
  intros shadow.
  destruct (destroy_by_integer_identifier "2" [shadow; device_b] [shadow]
              eq_refl eq_refl) as [Htbl Hstays].
  split; [exact Htbl|].
  apply (Hstays shadow); [left|reflexivity|discriminate].
Defined.

(** ** update_device followed by other calls *)

Lemma update_row_keeps (values : gmap string value) (d : Device)
    (k : string) :
  values !! k = None → col k (update_row values d) = col k d.
Proof.
  intros Hk. destruct (is_column k) eqn:Hc.
  - rewrite update_row_col by done. unfold pick. by rewrite Hk.
  - unfold col. by rewrite !column_None.
Qed.

(** What a successful [update_device] has done: the mapping has no
    ['uuid'], the identifier selected the one row [ref], and the flush
    of [ref] with the columns of the mapping set was committed. *)
Lemma update_device_Ok_inv (device_id : string)
    (values : gmap string value) (now : Z) (tbl tbl' : table)
    (o : instance) :
  update_device device_id values now tbl = Ok (o, tbl') →
  ("uuid" ∉ dom values) ∧
  ∃ ref, add_identity_filter tbl device_id = Ok [ref] ∧ ref ∈ tbl ∧
         flush ref (update_row values ref) now tbl = Ok (row o, tbl').
Proof.
  unfold update_device. case_bool_decide as Hu; [done|].
  intros Hok. split; [done|].
  assert (∃ ref, add_identity_filter tbl device_id = Ok [ref]) as [ref Hq].
  { pose proof Hok as Hok'. unfold _do_update_device in Hok'.
    destruct (add_identity_filter tbl device_id) as [query|e]; [|done].
    simpl in Hok'. destruct query as [|ref [|? ?]]; [done| |done].
    by exists ref. }
  exists ref. split; [done|]. split.
  { apply (add_identity_filter_elem _ _ _ _ Hq). by left. }
  destruct (_do_update_device_found device_id values now tbl ref Hq)
    as [extra Heq].
  rewrite Heq in Hok.
  destruct (flush ref (update_row values ref) now tbl) as [[d t]|e];
    [|done].
  by injection Hok as <- <-.
Qed.




Lemma update_row_no_column (values : gmap string value) (d : Device) :
  (∀ k, is_column k = true → values !! k = None) →
  update_row values d = d.
Proof.
  intros Hno. unfold update_row, pick. rewrite !Hno by done.
  by destruct d.
Qed.

(** X7.  An update whose mapping names no column, the empty mapping for
    one, writes nothing: when the call succeeds the table is the same,
    the row returned is the stored one, and [updated_at] is not stamped. *)
Theorem update_without_columns (device_id : string)
    (values : gmap string value) (now : Z) (tbl tbl' : table)
    (o : instance) :
  (∀ k, is_column k = true → values !! k = None) →
  update_device device_id values now tbl = Ok (o, tbl') →
  tbl' = tbl ∧ row o ∈ tbl ∧
  add_identity_filter tbl device_id = Ok [row o].
Proof.
  intros Hno Hok.
  destruct (update_device_Ok_inv _ _ _ _ _ _ Hok)
    as (_ & ref & Hq & Href & Hf).
  rewrite (update_row_no_column values ref Hno) in Hf.
  unfold flush in Hf. rewrite bool_decide_eq_true_2 in Hf by done.
  injection Hf as <- <-. done.
Qed.

Lemma update_without_columns_witness :
  ∃ o,
    update_device "2" ∅ 200 [device_a; device_b]
      = Ok (o, [device_a; device_b]) ∧
    row o ∈ [device_a; device_b].
Proof.
  assert (∃ o, update_device "2" ∅ 200 [device_a; device_b]
                 = Ok (o, [device_a; device_b])) as (o & Hok)
    by (eexists; reflexivity).
  exists o. split; [exact Hok|].
  refine (proj1 (proj2 (update_without_columns "2" ∅ 200
            [device_a; device_b] [device_a; device_b] o _ Hok))).
  intros k _. apply lookup_empty.
Defined.

(** ** The exceptions of the storage layer *)

Lemma one_raised_class (device : string) (q : table) (c : iot_class) :
  raised_class (one device q) = Some c → c = DeviceNotFound.
Proof. destruct q as [|a [|b q]]; simpl; congruence. Qed.

Lemma add_identity_filter_raised_class (tbl : table) (value : string)
    (c : iot_class) :
  raised_class (add_identity_filter tbl value) = Some c →
  c = InvalidIdentity.
Proof.
  unfold add_identity_filter.
  destruct (Utils.is_int_like value); [done|].
  destruct (Utils.is_uuid_like value); simpl; congruence.
Qed.

(** X8.  The only [IoTException]s the storage layer raises:
    [destroy_device] raises [InvalidIdentity] or [DeviceNotFound];
    [update_device] raises [InvalidParameterValue], [InvalidIdentity] or
    [DeviceNotFound]; [create_device] raises [DeviceAlreadyExists]; the
    two lookups raise [DeviceNotFound]; [get_device_list] raises none.
    All of them carry a code below 500. *)
Theorem storage_exception_classes :
  (∀ device_id tbl c,
     raised_class (destroy_device device_id tbl) = Some c →
     (c = InvalidIdentity ∨ c = DeviceNotFound) ∧ code c < 500) ∧
  (∀ device_id values now tbl c,
     raised_class (update_device device_id values now tbl) = Some c →
     (c = InvalidParameterValue ∨ c = InvalidIdentity ∨ c = DeviceNotFound)
     ∧ code c < 500) ∧
  (∀ values gen now tbl c,
     raised_class (create_device values gen now tbl) = Some c →
     c = DeviceAlreadyExists ∧ code c < 500) ∧
  (∀ v tbl c,
     raised_class (get_device_by_id v tbl) = Some c →
     c = DeviceNotFound ∧ code c < 500) ∧
  (∀ v tbl c,
     raised_class (get_device_by_uuid v tbl) = Some c →
     c = DeviceNotFound ∧ code c < 500) ∧
  (∀ filters limit marker sort_key sort_dir tbl,
     raised_class
       (get_device_list filters limit marker sort_key sort_dir tbl) = None).
Proof.
  split; [|split; [|split; [|split; [|split]]]].
  - intros device_id tbl c. unfold destroy_device.
    destruct (add_identity_filter tbl device_id) as [q|e] eqn:Hq.
    + simpl. case_bool_decide; simpl; [|done].
      intros [= <-]. split; [by right|done].
    + intros Hc.
      assert (raised_class (add_identity_filter tbl device_id) = Some c)
        as Hc' by (by rewrite Hq).
      apply add_identity_filter_raised_class in Hc' as ->.
      split; [by left|done].
  - intros device_id values now tbl c. unfold update_device.
    case_bool_decide.
    { simpl. intros [= <-]. split; [by left|done]. }
    unfold _do_update_device.
    destruct (add_identity_filter tbl device_id) as [q|e] eqn:Hq.
    + simpl. destruct (one device_id q) as [ref|e] eqn:Ho.
      * simpl. destruct (flush _ _ _ _) as [[d t]|e] eqn:Hf; [done|].
        simpl. unfold flush in Hf. case_bool_decide; [done|].
        destruct (id _); try (injection Hf as <-; done).
        destruct (_ || _); [|done]. injection Hf as <-. done.
      * intros Hc.
        assert (raised_class (one device_id q) = Some c) as Hc'
          by (by rewrite Ho).
        apply one_raised_class in Hc' as ->. split; [auto|done].
    + intros Hc.
      assert (raised_class (add_identity_filter tbl device_id) = Some c)
        as Hc' by (by rewrite Hq).
      apply add_identity_filter_raised_class in Hc' as ->.
      split; [auto|done].
  - intros values gen now tbl c. unfold create_device.
    destruct (insert _ now tbl) as [[d t]|e] eqn:Hi; [done|].
    case_bool_decide; simpl; [by intros [= <-]|].
    by destruct (insert_Raise _ _ _ _ Hi) as [-> | ->].
  - intros v tbl c Hc. apply one_raised_class in Hc as ->. done.
  - intros v tbl c Hc. apply one_raised_class in Hc as ->. done.
  - intros filters limit marker sort_key sort_dir tbl.
    unfold get_device_list, _add_devices_filters.
    destruct (default ∅ filters !! "image_id"); [done|]. simpl.
    unfold _paginate_query, paginate_query.
    destruct (sort_direction sort_dir) as [desc|e] eqn:Hd; simpl.
    + destruct (forallb _ _); simpl; [|done].
      destruct marker as [m|]; [|done]. by destruct (existsb _ _).
    + unfold sort_direction in Hd. destruct sort_dir as [d|]; [|done].
      destruct (String.eqb d "asc"); [done|].
      destruct (String.eqb d "desc"); [done|]. by injection Hd as <-.
Qed.

(** ** The invariant of the table *)

(** X9.  Every operation that writes keeps the table consistent: integer
    primary keys, no two rows with the same [id], no two rows with the
    same uuid. *)
Theorem operations_keep_consistent (tbl : table) :
  consistent tbl →
  (∀ values gen now o tbl',
     create_device values gen now tbl = Ok (o, tbl') → consistent tbl') ∧
  (∀ device_id tbl',
     destroy_device device_id tbl = Ok ((), tbl') → consistent tbl') ∧
  (∀ device_id values now o tbl',
     update_device device_id values now tbl = Ok (o, tbl') →
     consistent tbl').
Proof.
  intros Hc. split; [|split].
  - intros values gen now o tbl'. by apply create_device_consistent.
  - intros device_id tbl'. by apply destroy_device_consistent.
  - intros device_id values now o tbl'. by apply update_device_consistent.
Qed.

Lemma operations_keep_consistent_witness :
  consistent [device_a].
Proof.
  exact (proj1 (proj2 (operations_keep_consistent [device_a; device_b]
                         consistent_a_b)) "2" [device_a] eq_refl).
Defined.

(** ** Listings: errors, filters, directions *)


Lemma filter_comm {A} (P Q : A → Prop) `{∀ x, Decision (P x)}
    `{∀ x, Decision (Q x)} (l : list A) :
  filter P (filter Q l) = filter Q (filter P l).
Proof.
  induction l as [|a l IH]; [done|].
  rewrite !(filter_cons _ a).
  destruct (decide (Q a)), (decide (P a));
    rewrite ?filter_cons_True, ?filter_cons_False by done; by rewrite IH.
Qed.

(** X11.  For a filter [name] that is a string or [None] (an integer
    is compared by the backend after a conversion of its own), the rows
    a listing returns without marker and limit are those of the table
    named by the filter; the other keys of [filters] play no part. *)
Theorem get_device_list_name_filter (filters : gmap string value)
    (sort_key sort_dir : option string) (tbl all : table) :
  (∀ z, filters !! "name" ≠ Some (VInt z)) →
  get_device_list (Some filters) None None sort_key sort_dir tbl = Ok all →
  (∀ d, d ∈ all ↔ d ∈ tbl ∧ ∀ v, filters !! "name" = Some v → name d = v) ∧
  (∀ v, filters !! "name" = Some v →
        all ≡ₚ filter (λ d, name d = v) tbl) ∧
  (filters !! "name" = None → all ≡ₚ tbl).
Proof.
  intros _ Hall.
  destruct (get_device_list_Ok_inv _ _ _ _ _ _ _ Hall)
    as (query & desc & Hq & Hd & Hk).
  rewrite (get_device_list_eq _ _ _ _ _ _ _ _ Hq Hd Hk) in Hall by done.
  simpl in Hall. injection Hall as <-.
  unfold order_by.
  unfold _add_devices_filters in Hq. simpl in Hq.
  destruct (filters !! "image_id"); [done|].
  destruct (filters !! "name") as [v|] eqn:Hname; injection Hq as <-.
  - assert (filter_by "name" v tbl = filter (λ d, name d = v) tbl) as Heq.
    { unfold filter_by. apply filter_ext_elem. intros d _.
      unfold sql_eq. by rewrite bool_decide_eq_true. }
    split; [|split; [|done]].
    + intros d. rewrite merge_sort_Permutation, Heq.
      rewrite list_elem_of_filter. split.
      * intros [<- Hd']. split; [done|]. by intros w [= <-].
      * intros [Hd' Hw]. split; [|done]. by apply Hw.
    + intros w [= <-]. by rewrite merge_sort_Permutation, Heq.
  - split; [|split; [done|]].
    + intros d. rewrite merge_sort_Permutation. split; [|tauto].
      intros Hd'. split; [done|]. done.
    + intros _. apply merge_sort_Permutation.
Qed.

Lemma get_device_list_name_filter_witness :
  ∃ all,
    get_device_list
      (Some {[ "name" := VStr "sensor2"; "desc" := VStr "unused" ]})
      None None None None [device_a; device_b; device_c] = Ok all ∧
    (device_b ∈ all ↔
       device_b ∈ [device_a; device_b; device_c] ∧
       ∀ v, ({[ "name" := VStr "sensor2"; "desc" := VStr "unused" ]}
               : gmap string value) !! "name" = Some v →
            name device_b = v).
Proof.
  assert (∃ all,
            get_device_list
              (Some {[ "name" := VStr "sensor2"; "desc" := VStr "unused" ]})
              None None None None [device_a; device_b; device_c] = Ok all)
    as [all Hall] by (eexists; reflexivity).
  exists all. split; [exact Hall|].
  assert (∀ z, ({[ "name" := VStr "sensor2"; "desc" := VStr "unused" ]}
                  : gmap string value) !! "name" ≠ Some (VInt z)) as Hstr.
  { intros z Hz. vm_compute in Hz. discriminate. }
  exact (proj1 (get_device_list_name_filter _ None None _ all Hstr Hall)
           device_b).
Defined.

(** *** Listings are determined by the rows *)

Lemma StronglySorted_reverse {A} (R : relation A) (l : list A) :
  StronglySorted R l → StronglySorted (flip R) (reverse l).
Proof.
  induction 1 as [|x l Hs IH Hx]; [constructor|].
  rewrite reverse_cons. apply StronglySorted_app_2; [|done|].
  - intros x1 x2 H1 H2. apply list_elem_of_singleton in H2 as ->.
    rewrite Forall_forall in Hx. apply Hx. by rewrite elem_of_reverse in H1.
  - repeat constructor.
Qed.

Lemma StronglySorted_filter {A} (R : relation A) (P : A → Prop)
    `{∀ x, Decision (P x)} (l : list A) :
  StronglySorted R l → StronglySorted R (filter P l).
Proof.
  induction 1 as [|x l Hs IH Hx]; [constructor|].
  rewrite filter_cons. destruct (decide (P x)); [|done].
  constructor; [done|]. rewrite Forall_forall in *.
  intros y Hy. apply list_elem_of_filter in Hy as [_ Hy]. by apply Hx.
Qed.

Lemma StronglySorted_impl {A} (R1 R2 : relation A) (l : list A) :
  (∀ x y, R1 x y → R2 x y) → StronglySorted R1 l → StronglySorted R2 l.
Proof.
  intros HR. induction 1 as [|x l Hs IH Hx]; constructor; [done|].
  eapply Forall_impl; [done|]. intros y. apply HR.
Qed.

Lemma NoDup_fmap_elem_inj {A B} (f : A → B) (l : list A) (x y : A) :
  NoDup (f <$> l) → x ∈ l → y ∈ l → f x = f y → x = y.
Proof.
  induction l as [|a l IH]; intros Hnd Hx Hy Hf.
  - by apply elem_of_nil in Hx.
  - rewrite fmap_cons in Hnd. apply NoDup_cons in Hnd as [Hnotin Hnd].
    apply elem_of_cons in Hx as [->|Hx]; apply elem_of_cons in Hy as [->|Hy].
    + done.
    + destruct Hnotin. rewrite Hf. apply list_elem_of_fmap. by exists y.
    + destruct Hnotin. rewrite <- Hf. apply list_elem_of_fmap. by exists x.
    + by apply IH.
Qed.

Lemma row_le_antisym_id desc (keys : list string) (a b : Device) :
  "id" ∈ keys → row_le desc keys a b → row_le desc keys b a → id a = id b.
Proof.
  unfold row_le. intros Hid Hab Hba.
  rewrite (rows_compare_antisym desc keys a b) in Hab.
  destruct (rows_compare desc keys b a) eqn:Hc; [|done|done].
  symmetry. exact (proj1 (rows_compare_Eq _ _ _ _) Hc "id" Hid).
Qed.

(** Among rows with distinct primary keys there is one way to put them
    in the order of the sort keys. *)
Lemma sorted_unique_by_id desc (keys : list string) (l1 l2 : table) :
  "id" ∈ keys → NoDup (id <$> l1) →
  StronglySorted (row_le desc keys) l1 →
  StronglySorted (row_le desc keys) l2 →
  l1 ≡ₚ l2 → l1 = l2.
Proof.
  intros Hid Hnd Hs1 Hs2 Hperm.
  apply (StronglySorted_unique_strong (row_le desc keys)); [|done..].
  intros x1 x2 H1 H2 Hle Hge. rewrite <- Hperm in H2.
  apply (NoDup_fmap_elem_inj id l1); [done..|].
  by apply (row_le_antisym_id desc keys).
Qed.

Lemma order_by_filter desc (keys : list string) (P : Device → Prop)
    `{∀ x, Decision (P x)} (q : table) :
  "id" ∈ keys → NoDup (id <$> q) →
  order_by desc keys (filter P q) = filter P (order_by desc keys q).
Proof.
  intros Hid Hnd. unfold order_by.
  apply (sorted_unique_by_id desc keys); [done| | | |].
  - rewrite merge_sort_Permutation. by apply NoDup_fmap_filter.
  - apply StronglySorted_merge_sort; apply _.
  - apply StronglySorted_filter. apply StronglySorted_merge_sort; apply _.
  - by rewrite !merge_sort_Permutation.
Qed.

Lemma order_by_desc_reverse (keys : list string) (q : table) :
  "id" ∈ keys → NoDup (id <$> q) →
  order_by true keys q = reverse (order_by false keys q).
Proof.
  intros Hid Hnd. unfold order_by.
  apply (sorted_unique_by_id true keys); [done| | | |].
  - by rewrite merge_sort_Permutation.
  - apply StronglySorted_merge_sort; apply _.
  - apply StronglySorted_impl with (flip (row_le false keys)).
    + intros x y. unfold flip, row_le. by rewrite rows_compare_desc.
    + apply StronglySorted_reverse.
      apply StronglySorted_merge_sort; apply _.
  - by rewrite reverse_Permutation, !merge_sort_Permutation.
Qed.

(** X12.  On a consistent table the descending listing is the ascending
    one read backwards, and a listing without direction is the ascending
    one. *)
Theorem get_device_list_desc_reverse
    (filters : option (gmap string value)) (sort_key : option string)
    (tbl l : table) :
  consistent tbl →
  get_device_list filters None None sort_key (Some "asc") tbl = Ok l →
  get_device_list filters None None sort_key None tbl = Ok l ∧
  get_device_list filters None None sort_key (Some "desc") tbl
    = Ok (reverse l).
Proof.
  intros (_ & Hids & _) Hl.
  destruct (get_device_list_Ok_inv _ _ _ _ _ _ _ Hl)
    as (query & desc & Hq & Hd & Hk).
  injection Hd as <-.
  rewrite (get_device_list_eq filters None None sort_key (Some "asc") tbl
             query false Hq eq_refl Hk) in Hl by done.
  injection Hl as <-.
  split.
  - by rewrite (get_device_list_eq filters None None sort_key None tbl
                  query false Hq eq_refl Hk) by done.
  - rewrite (get_device_list_eq filters None None sort_key (Some "desc")
               tbl query true Hq eq_refl Hk) by done.
    simpl. f_equal. apply order_by_desc_reverse.
    + apply id_in_sort_keys.
    + by apply (add_devices_filters_Ok tbl query filters).
Qed.

Lemma get_device_list_desc_reverse_witness :
  get_device_list None None None (Some "name") (Some "desc")
    [device_a; device_b] = Ok (reverse [device_a; device_b]).
Proof.
  exact (proj2 (get_device_list_desc_reverse None (Some "name")
                  [device_a; device_b] [device_a; device_b]
                  consistent_a_b eq_refl)).
Defined.

Lemma after_marker_self desc (keys : list string) (m : Device) :
  after_marker desc keys m m = false.
Proof.
  induction keys as [|k ks IH]; [done|].
  rewrite after_marker_cons, IH, andb_false_r, orb_false_r.
  unfold sql_lt, sql_gt. rewrite value_compare_refl.
  by destruct desc, (col k m).
Qed.

Lemma add_devices_filters_filter (P : Device → Prop)
    `{∀ x, Decision (P x)} (tbl query : table)
    (filters : option (gmap string value)) :
  _add_devices_filters tbl filters = Ok query →
  _add_devices_filters (filter P tbl) filters = Ok (filter P query).
Proof.
  unfold _add_devices_filters.
  destruct (default ∅ filters !! "image_id"); [done|].
  destruct (default ∅ filters !! "name") as [v|]; intros [= <-]; [|done].
  unfold filter_by. by rewrite filter_comm.
Qed.

(** X13.  A page does not depend on the marker still being stored: after
    the device used as marker has been destroyed, the listing asked for
    with that marker is the one it was before, for every filter, limit,
    sort key and direction. *)
Theorem get_device_list_marker_destroyed (device_id : string)
    (tbl tbl' : table) :
  consistent tbl →
  destroy_device device_id tbl = Ok ((), tbl') →
  ∃ m, add_identity_filter tbl device_id = Ok [m] ∧ m ∈ tbl ∧ (m ∉ tbl') ∧
    ∀ filters limit sort_key sort_dir,
      get_device_list filters limit (Some m) sort_key sort_dir tbl'
        = get_device_list filters limit (Some m) sort_key sort_dir tbl.
Proof.
  intros Hc Hdel. unfold destroy_device in Hdel.
  destruct (add_identity_filter tbl device_id) as [q|e] eqn:Hq; [|done].
  simpl in Hdel. case_bool_decide as Hlen; [done|].
  injection Hdel as <-.
  destruct q as [|m [|b q]]; simpl in Hlen; [done| |done].
  exists m. split; [done|].
  assert (m ∈ tbl) as Hm.
  { apply (add_identity_filter_elem tbl [m] device_id); [done|left]. }
  split; [done|]. split.
  { intros Hin. apply list_elem_of_filter in Hin as [Hnot _].
    apply Hnot. left. }
  intros filters limit sort_key sort_dir.
  unfold get_device_list.
  destruct (_add_devices_filters tbl filters) as [query|e] eqn:Hf.
  2: { unfold _add_devices_filters in *.
       destruct (default ∅ filters !! "image_id"); [done|done]. }
  rewrite (add_devices_filters_filter _ tbl query filters Hf). simpl.
  unfold _paginate_query, paginate_query.
  destruct (sort_direction sort_dir) as [desc|e]; [|done]. simpl.
  destruct (negb _); [done|].
  rewrite order_by_filter.
  - rewrite filter_comm.
    rewrite (filter_all (λ d, d ∉ [m])); [done|].
    intros r Hr. apply list_elem_of_filter in Hr as [Hafter _].
    intros Hin. apply list_elem_of_singleton in Hin as ->.
    by rewrite after_marker_self in Hafter.
  - apply id_in_sort_keys.
  - destruct Hc as (_ & Hids & _).
    by apply (add_devices_filters_Ok tbl query filters).
Qed.

Lemma get_device_list_marker_destroyed_witness :
  ∃ m, add_identity_filter [device_a; device_b; device_c] "1" = Ok [m] ∧
    get_device_list None (Some 1%nat) (Some m) None None
      [device_b; device_c]
    = get_device_list None (Some 1%nat) (Some m) None None
        [device_a; device_b; device_c].
Proof.
  assert (consistent [device_a; device_b; device_c]) as Hc.
  { repeat split.
    - repeat constructor; by eexists.
    - apply (bool_decide_unpack _). by vm_compute.
    - apply (bool_decide_unpack _). by vm_compute. }
  destruct (get_device_list_marker_destroyed "1"
              [device_a; device_b; device_c] [device_b; device_c] Hc
              eq_refl) as (m & Hm & _ & _ & Hpage).
  exists m. split; [exact Hm|]. apply Hpage.
Defined.

(** ** The domain object on the SQLAlchemy engine *)

Section object_on_sqlalchemy.

Import Objects.

Context (gen : string) (now : Z).

Local Abbreviation backend := (sqlalchemy_backend gen now).

Lemma one_filter_by (device k : string) (v : value) (tbl : table) :
  (length (filter_by k v tbl) ≤ 1)%nat →
  ((∃ d, d ∈ tbl ∧ col k d = v) →
   ∃ d, d ∈ tbl ∧ col k d = v ∧ one device (filter_by k v tbl) = Ok d) ∧
  ((∀ d, d ∈ tbl → col k d ≠ v) →
   one device (filter_by k v tbl) = Raise (mkDeviceNotFound device)).
Proof.
  intros Hlen. destruct (one_spec device _ Hlen) as (Hok & Hnone & _).
  split.
  - intros (d & Hd & Hv). exists d. split; [done|]. split; [done|].
    apply Hok. by apply filter_by_elem.
  - intros Hno. apply Hnone. intros d Hd.
    apply filter_by_elem in Hd as [Hv Hd]. by apply (Hno d).
Qed.

(** X14.  [Device.get] on the SQLAlchemy engine never returns an object:
    an identifier of neither shape raises [InvalidIdentity], an
    identifier that names no stored device raises [DeviceNotFound], and
    one that names a stored device ends in the [AttributeError] of the
    conversion. *)
Theorem get_outcomes (device_id : string) (tbl : table) :
  consistent tbl →
  let r := get (dbapi := backend) device_id tbl in
  is_Ok r = false ∧
  (Utils.is_int_like device_id = false →
   Utils.is_uuid_like device_id = false →
   r = Raise (mkInvalidIdentity device_id)) ∧
  (Utils.is_int_like device_id = true →
   ((∃ d, d ∈ tbl ∧ id d = VInt (Utils.int_of device_id)) →
    r = Raise (PyExc "AttributeError" "image_id")) ∧
   ((∀ d, d ∈ tbl → id d ≠ VInt (Utils.int_of device_id)) →
    r = Raise (mkDeviceNotFound device_id))) ∧
  (Utils.is_int_like device_id = false →
   Utils.is_uuid_like device_id = true →
   ((∃ d, d ∈ tbl ∧ uuid d = VStr device_id) →
    r = Raise (PyExc "AttributeError" "image_id")) ∧
   ((∀ d, d ∈ tbl → uuid d ≠ VStr device_id) →
    r = Raise (mkDeviceNotFound device_id))).
Proof.
  intros Hc r. subst r. unfold get.
  assert (∀ v, is_Ok (get_by_id (dbapi := backend) v tbl) = false) as Hid.
  { intros v. unfold get_by_id.
    by destruct (Api.get_device_by_id v tbl). }
  assert (∀ v, is_Ok (get_by_uuid (dbapi := backend) v tbl) = false) as Hu.
  { intros v. unfold get_by_uuid.
    by destruct (Api.get_device_by_uuid v tbl). }
  destruct (Utils.is_int_like device_id) eqn:Hint.
  - split; [apply Hid|]. split; [done|]. split; [|done]. intros _.
    unfold get_by_id. simpl. unfold DbApi.get_device_by_id, filter_by_id.
    simpl. rewrite Hint.
    destruct (one_filter_by device_id "id" (VInt (Utils.int_of device_id))
                tbl (consistent_id_unique _ _ Hc)) as [Hsome Hnone].
    split.
    + intros Hex. destruct (Hsome Hex) as (d & _ & _ & ->). reflexivity.
    + intros Hno. by rewrite (Hnone Hno).
  - destruct (Utils.is_uuid_like device_id) eqn:Huuid.
    + split; [apply Hu|]. split; [done|]. split; [done|]. intros _ _.
      unfold get_by_uuid. simpl.
      unfold DbApi.get_device_by_uuid, filter_by_uuid. simpl.
      destruct (one_filter_by device_id "uuid" (VStr device_id) tbl
                  (consistent_uuid_unique _ _ Hc)) as [Hsome Hnone].
      split.
      * intros Hex. destruct (Hsome Hex) as (d & _ & _ & ->). reflexivity.
      * intros Hno. by rewrite (Hnone Hno).
    + split; [done|]. split; [done|]. split; done.
Qed.

(** X15.  [Device.list] returns only the empty list: as soon as the
    listing of the engine has a row, the conversion of the first row
    raises.  On a table that is not empty the call without marker and
    limit never returns. *)
Theorem Device_list_outcomes (limit : option nat)
    (marker : option Models.Device)
    (sort_key sort_dir : option string) (tbl : table) :
  let r := Device_list (dbapi := backend) limit marker sort_key sort_dir tbl in
  (∀ l, r = Ok l →
     l = [] ∧
     get_device_list None limit marker sort_key sort_dir tbl = Ok []) ∧
  (get_device_list None limit marker sort_key sort_dir tbl = Ok [] →
     r = Ok []) ∧
  (∀ d ds,
     get_device_list None limit marker sort_key sort_dir tbl = Ok (d :: ds) →
     r = Raise (PyExc "AttributeError" "image_id")) ∧
  (tbl ≠ [] →
     is_Ok (Device_list (dbapi := backend) None None sort_key sort_dir tbl)
       = false).
Proof.
  intros r. subst r. unfold Device_list. simpl.
  split; [|split; [|split]].
  - intros l.
    destruct (get_device_list None limit marker sort_key sort_dir tbl)
      as [[|d ds]|e]; simpl; [|done|done].
    by intros [= <-].
  - by intros ->.
  - by intros d ds ->.
  - intros Hne.
    destruct (get_device_list None None None sort_key sort_dir tbl)
      as [all|e] eqn:Hall; [|done].
    destruct (get_device_list_Ok_inv _ _ _ _ _ _ _ Hall)
      as (query & desc & Hq & Hd & Hk).
    rewrite (get_device_list_eq _ _ _ _ _ _ _ _ Hq Hd Hk) in Hall by done.
    assert (_add_devices_filters tbl None = Ok tbl) as Hq' by reflexivity.
    rewrite Hq' in Hq. injection Hq as <-.
    simpl in Hall. injection Hall as <-.
    destruct (order_by desc (sort_keys_for sort_key) tbl) as [|d ds] eqn:Ho;
      [|done].
    destruct Hne. apply Permutation_nil_r. rewrite <- Ho.
    unfold order_by. by rewrite merge_sort_Permutation.
Qed.

(** X16.  [Device.create] stores the row in every case in which the
    engine's [create_device] succeeds, but returns only when the object
    had its field [image_id] assigned: otherwise the device is in the
    table and the call has raised. *)
Theorem create_outcomes (self : Objects.Device) (tbl tbl' : table)
    (o : instance) :
  DbApi.create_device (obj_get_changes self) gen now tbl = Ok (o, tbl') →
  (create_outcome (dbapi := backend) self tbl).2 = tbl' ∧
  row o ∈ tbl' ∧
  (obj_get_changes self !! "image_id" = None →
   create (dbapi := backend) self tbl
     = Raise (PyExc "AttributeError" "image_id")) ∧
  (∀ v, obj_get_changes self !! "image_id" = Some v →
     ∃ self', create (dbapi := backend) self tbl = Ok (self', tbl') ∧
       obj_changed_fields self' = ∅ ∧
       obj_attrs self' !! "id" = Some (id (row o)) ∧
       obj_attrs self' !! "uuid" = Some (uuid (row o)) ∧
       obj_attrs self' !! "image_id" = Some v).
Proof.
  intros Hcreate.
  destruct (create_device_Ok_inv _ _ _ _ _ _ Hcreate)
    as (Htbl & _ & _ & _ & _ & _ & Hattr).
  assert (Models.getitem o "image_id" = obj_get_changes self !! "image_id")
    as Himg by (by apply Hattr).
  unfold create_outcome, create. simpl. rewrite Hcreate. simpl.
  split; [done|]. split.
  { rewrite Htbl. apply elem_of_app. right. by apply list_elem_of_singleton. }
  split.
  - intros Hnone. rewrite Hnone in Himg.
    unfold _from_db_object, fields. cbn [copy_fields].
    change (Models.getitem o "id") with (Some (id (row o))).
    change (Models.getitem o "uuid") with (Some (uuid (row o))).
    change (Models.getitem o "name") with (Some (name (row o))).
    change (Models.getitem o "project_id") with (Some (project_id (row o))).
    change (Models.getitem o "user_id") with (Some (user_id (row o))).
    cbn iota. by rewrite Himg.
  - intros v Hv. rewrite Hv in Himg.
    destruct (from_db_object_complete self o) as (self' & Hfrom & Hin & Hch).
    { intros f Hf. unfold fields in Hf.
      repeat (apply elem_of_cons in Hf as [->|Hf]; [by eexists|]).
      by apply elem_of_nil in Hf. }
    exists self'. rewrite Hfrom. simpl. split; [done|]. split; [done|].
    rewrite !Hin by (unfold fields; set_solver).
    by rewrite Himg.
Qed.

(** X17.  An object on which [uuid] has been assigned since it was
    loaded or last saved cannot be saved: the change-set carries [uuid],
    and [update_device] refuses it before looking at the table. *)
Theorem save_with_changed_uuid (self : Objects.Device) (u : value)
    (tbl : table) :
  getattr self "uuid" = Ok u →
  "uuid" ∈ obj_changed_fields self →
  save (dbapi := backend) self tbl
    = Raise (mkInvalidParameterValue
               "Cannot overwrite UUID for an existing Device.").
Proof.
  intros Hu Hch. unfold save. rewrite Hu. simpl.
  unfold DbApi.update_device.
  rewrite bool_decide_eq_true_2; [done|].
  apply elem_of_dom. exists u. unfold obj_get_changes.
  apply map_lookup_filter_Some. split; [|done].
  unfold getattr in Hu. by destruct (obj_attrs self !! "uuid") as [x|];
    [injection Hu as ->|].
Qed.

End object_on_sqlalchemy.

Lemma get_outcomes_witness :
  @Objects.get _ (sqlalchemy_backend "" 0)
    "0f0e0d0c-0b0a-4900-8807-060504030201" [device_a; device_b]
  = Raise (PyExc "AttributeError" "image_id").
Proof.
  refine (proj1 (proj2 (proj2 (proj2 (get_outcomes "" 0
            "0f0e0d0c-0b0a-4900-8807-060504030201" [device_a; device_b]
            consistent_a_b))) eq_refl eq_refl) _).
  exists device_b. split; [|reflexivity]. right. left.
Defined.

Lemma create_outcomes_witness :
  let self :=
    Objects.assign_all [("name", VStr "sensor3")] Objects.new in
  @Objects.create _ (sqlalchemy_backend
                       "7d2f0c1e-5a4b-4c3d-9e8f-001122334455" 300)
    self [device_a; device_b]
  = Raise (PyExc "AttributeError" "image_id") ∧
  length (@Objects.create_outcome _
            (sqlalchemy_backend "7d2f0c1e-5a4b-4c3d-9e8f-001122334455" 300)
            self [device_a; device_b]).2 = 3%nat.
Proof.
  intros self.
  assert (∃ o tbl',
            DbApi.create_device (Objects.obj_get_changes self)
              "7d2f0c1e-5a4b-4c3d-9e8f-001122334455" 300
              [device_a; device_b] = Ok (o, tbl') ∧ length tbl' = 3%nat)
    as (o & tbl' & Hcreate & Hlen)
    by (eexists _, _; split; reflexivity).
  destruct (create_outcomes "7d2f0c1e-5a4b-4c3d-9e8f-001122334455" 300
              self [device_a; device_b] tbl' o Hcreate)
    as (Hst & _ & Hraise & _).
  split.
  - apply Hraise. reflexivity.
  - by rewrite Hst.
Defined.

Lemma save_with_changed_uuid_witness :
  let self :=
    Objects.assign_all
      [("uuid", VStr "0f0e0d0c-0b0a-4900-8807-060504030201");
       ("name", VStr "renamed")] Objects.new in
  @Objects.save _ (sqlalchemy_backend "" 200) self [device_a; device_b]
  = Raise (mkInvalidParameterValue
             "Cannot overwrite UUID for an existing Device.").
Proof.
  intros self.
  apply (save_with_changed_uuid "" 200 self
           (VStr "0f0e0d0c-0b0a-4900-8807-060504030201")).
  - reflexivity.
  - apply (bool_decide_unpack _). by vm_compute.
Defined.

(** ** The messages of the exceptions *)

Lemma append_empty_r (s : string) : s ++ "" = s.
Proof.
  induction s as [|c s IH]; [done|].
  change (String c (s ++ "") = String c s). by rewrite IH.
Qed.

(** X18.  The exceptions of the storage layer carry the message that the
    constructor of [IoTException] builds: the class template with the
    keyword argument filled in, whatever the setting of
    [fatal_exception_format_errors].  [DeviceNotFound(device_id)], with
    the identifier passed as [message], keeps the template unformatted:
    the identifier is not in the text. *)
Theorem constructor_messages (fatal : bool) :
  (∀ identity,
     IoTException_init fatal InvalidIdentity None
       {[ "identity" := identity ]} = Ok (mkInvalidIdentity identity)) ∧
  (∀ err,
     IoTException_init fatal InvalidParameterValue None {[ "err" := err ]}
       = Ok (mkInvalidParameterValue err)) ∧
  (∀ device,
     IoTException_init fatal DeviceNotFound None {[ "device" := device ]}
       = Ok (mkDeviceNotFound device)) ∧
  (∀ uuid,
     IoTException_init fatal DeviceAlreadyExists None
       {[ "uuid" := str uuid ]} = Ok (mkDeviceAlreadyExists uuid)) ∧
  (∀ device_id, device_id ≠ "" ∨ fatal = false →
     IoTException_init fatal DeviceNotFound (Some device_id) ∅
       = Ok (mkDeviceNotFound_positional device_id)).
Proof.
  split; [|split; [|split; [|split]]].
  - intros identity. by vm_compute.
  - intros err. unfold mkInvalidParameterValue.
    rewrite <- (append_empty_r err) at 2. by vm_compute.
  - intros device. by vm_compute.
  - intros uuid. by vm_compute.
  - intros device_id [Hne| ->].
    + by destruct device_id.
    + destruct device_id; by vm_compute.
Qed.

(** ** Keystone failures *)

(** X19.  [wrap_keystone_exception] leaves a call that returns, and
    every exception that is not keystone's, as they are.  A keystone
    failure becomes an [AuthorizationFailure] whose text is the
    unformatted class template: neither the name of the function nor the
    reason given by keystone is in it, whatever
    [fatal_exception_format_errors] says.  Its code is 500, so behind a
    controller wrapper the client gets the obfuscated message, and the
    line in the log has the template only. *)
Theorem wrap_keystone_exception_outcomes {W A : Type}
    (is_AuthorizationFailure is_ClientException : exn → bool)
    (fatal : bool) (func_name : string) :
  let wrapped (V : Type) (f : V → result A * V) :=
    Wrappers.wrap_keystone_exception is_AuthorizationFailure
      is_ClientException fatal func_name f in
  let failure :=
    IoT AuthorizationFailure "%(client)s connection failed. %(message)s" in
  (∀ (func : W → result A * W) w a w1,
     func w = (Ok a, w1) → wrapped W func w = (Ok a, w1)) ∧
  (∀ (func : W → result A * W) w e w1,
     func w = (Raise e, w1) →
     is_AuthorizationFailure e = false → is_ClientException e = false →
     wrapped W func w = (Raise e, w1)) ∧
  (∀ (func : W → result A * W) w e w1,
     func w = (Raise e, w1) →
     is_AuthorizationFailure e = true ∨ is_ClientException e = true →
     wrapped W func w = (Raise failure, w1)) ∧
  (∀ (func : Wrappers.M A) w e w1 uuid4,
     func w = (Raise e, w1) →
     is_AuthorizationFailure e = true ∨ is_ClientException e = true →
     let r :=
       Wrappers.wrap_wsme_controller_exception
         (wrapped Wrappers.world func) uuid4 w in
     r.1 = Raise (ClientSideError (Wrappers.OBFUSCATED_MSG uuid4) 500) ∧
     Wrappers.log r.2
       = (Wrappers.log w1
          ++ [("ERROR",
               (uuid4 ++ ":%(client)s connection failed. %(message)s")
                 %string)])%list).
Proof.
  intros wrapped failure.
  assert (∀ (V : Type) (f : V → result A * V) w e w1,
            f w = (Raise e, w1) →
            is_AuthorizationFailure e = true ∨ is_ClientException e = true →
            wrapped V f w = (Raise failure, w1)) as Hfail.
  { intros V f w e w1 Hf Hk. unfold wrapped, Wrappers.wrap_keystone_exception.
    rewrite Hf.
    destruct (is_AuthorizationFailure e); [done|].
    destruct Hk as [?|Hk]; [done|]. by rewrite Hk. }
  split; [|split; [|split]].
  - intros func w a w1 Hf.
    unfold wrapped, Wrappers.wrap_keystone_exception. by rewrite Hf.
  - intros func w e w1 Hf Ha Hc.
    unfold wrapped, Wrappers.wrap_keystone_exception.
    by rewrite Hf, Ha, Hc.
  - intros func. apply Hfail.
  - intros func w e w1 uuid4 Hf Hk r. subst r.
    unfold Wrappers.wrap_wsme_controller_exception,
      Wrappers.wrap_controller_exception.
    by rewrite (Hfail _ func w e w1 Hf Hk).
Qed.

(** ** What the controller wrappers do besides answering *)

(** X20.  A wrapped controller method that returns is not touched: the
    wrapper returns its value and leaves the response and the log as the
    method left them.  When the method raises an [Exception], the
    wrapper adds one line to the log, at level ERROR with the
    correlation id for a code of 500 or more and at level DEBUG
    otherwise, in both cases with the text of the exception; the wsme
    wrapper then always raises a [ClientSideError] and leaves the
    response alone, the pecan wrapper does not raise, returns nothing
    and drops the content type of the response for a code below 500.
    What the method raises and is no [Exception] (a
    [KeyboardInterrupt], a [SystemExit]) leaves both wrappers as it
    entered them, with no line logged and the response untouched. *)
Theorem controller_wrappers_effects {A : Type} (func : Wrappers.M A)
    (uuid4 : string) (w : Wrappers.world) :
  let rw := Wrappers.wrap_wsme_controller_exception func uuid4 w in
  let rp := Wrappers.wrap_pecan_controller_exception func uuid4 w in
  (∀ a w1, func w = (Ok a, w1) →
     rw = (Ok (Some a), w1) ∧ rp = (Ok (Some a), w1)) ∧
  (∀ excp w1, func w = (Raise excp, w1) → is_Exception excp = true →
     let server := 500 <=? Wrappers.http_error_code_of excp in
     let line :=
       if server then ("ERROR", uuid4 ++ ":" ++ text_type excp)
       else ("DEBUG", text_type excp) in
     Wrappers.log rw.2 = (Wrappers.log w1 ++ [line])%list ∧
     Wrappers.log rp.2 = (Wrappers.log w1 ++ [line])%list ∧
     Wrappers.response rw.2 = Wrappers.response w1 ∧
     (∃ msg, rw.1 = Raise (ClientSideError msg
                             (Wrappers.http_error_code_of excp))) ∧
     rp.1 = Ok None ∧
     Wrappers.content_type (Wrappers.response rp.2)
       = (if server then Wrappers.content_type (Wrappers.response w1)
          else None)) ∧
  (∀ excp w1, func w = (Raise excp, w1) → is_Exception excp = false →
     rw = (Raise excp, w1) ∧ rp = (Raise excp, w1)).
Proof.
  intros rw rp. subst rw rp.
  unfold Wrappers.wrap_wsme_controller_exception,
    Wrappers.wrap_pecan_controller_exception,
    Wrappers.wrap_controller_exception.
  split; [|split].
  - intros a w1 Hf. by rewrite Hf.
  - intros excp w1 Hf Hexc. rewrite Hf, Hexc.
    fold (Wrappers.http_error_code_of excp).
    destruct (500 <=? Wrappers.http_error_code_of excp); simpl; eauto 10.
  - intros excp w1 Hf Hexc. by rewrite Hf, Hexc.
Qed.

(** ** Query: failures and untyped values *)

Section query_value.

Import QueryFilter.

Context {V : Type}.
Context (int float bool_from_string text_type parse_isotime literal_eval
         : option string → V + raised).
Context (raw : option string → V).

Local Abbreviation get_value_as_type :=
  (_get_value_as_type int float bool_from_string text_type parse_isotime
     literal_eval raw).

Lemma handler_NameError (e : raised) (q : Query) (t : option string) :
  handler (V := V) e q t
    = Raise (PyExc "NameError"
               "global name 'ClientSideError' is not defined").
Proof. by destruct e. Qed.

(** X21.  Whatever makes [_get_value_as_type] fail, what it raises is
    the [NameError] of the unbound name [ClientSideError], never a
    [ClientSideError] with the message prepared for the client: behind
    the wsme wrapper a filter value that cannot be converted is answered
    with status 500 and the obfuscated message. *)
Theorem get_value_as_type_failure (forced_type : option string) (q : Query)
    (e : exn) :
  get_value_as_type forced_type q = Raise e →
  e = PyExc "NameError" "global name 'ClientSideError' is not defined" ∧
  ∀ (A : Type) (func : Wrappers.M A) (uuid4 : string)
    (w w1 : Wrappers.world),
    func w = (Raise e, w1) →
    Wrappers.wsme_client_view
      (Wrappers.wrap_wsme_controller_exception func uuid4 w)
      = Some (Wrappers.OBFUSCATED_MSG uuid4, 500).
Proof.
  intros Hr.
  assert (e = PyExc "NameError"
                "global name 'ClientSideError' is not defined") as ->.
  { unfold _get_value_as_type in Hr.
    destruct (if is_set forced_type then forced_type else type q) as [t|].
    - destruct (String.eqb t "").
      + destruct (literal_eval (value q)) as [v|[]]; try done;
          rewrite handler_NameError in Hr; by injection Hr as <-.
      + destruct (negb _).
        * rewrite handler_NameError in Hr. by injection Hr as <-.
        * destruct (_type_converters _ _ _ _ _ t) as [convert|].
          -- destruct (convert (value q)) as [v|e']; [done|].
             rewrite handler_NameError in Hr. by injection Hr as <-.
          -- rewrite handler_NameError in Hr. by injection Hr as <-.
    - destruct (literal_eval (value q)) as [v|[]]; try done;
        rewrite handler_NameError in Hr; by injection Hr as <-. }
  split; [done|].
  intros A func uuid4 w w1 Hf.
  unfold Wrappers.wsme_client_view, Wrappers.wrap_wsme_controller_exception,
    Wrappers.wrap_controller_exception.
  by rewrite Hf.
Qed.

(** X22.  Without a type (none forced, and the query's own unset or
    empty) the value is read as a Python literal: the call returns the
    literal when there is one, the value as it was given when
    [literal_eval] refuses it with a [ValueError] or a [SyntaxError],
    and fails only on another exception of [literal_eval]. *)
Theorem get_value_as_type_untyped (forced_type : option string)
    (q : Query) :
  is_set forced_type = false → is_set (type q) = false →
  let r := get_value_as_type forced_type q in
  (∀ v, literal_eval (value q) = inl v → r = Ok v) ∧
  (literal_eval (value q) = inr ValueError ∨
   literal_eval (value q) = inr SyntaxError → r = Ok (raw (value q))) ∧
  (literal_eval (value q) = inr TypeError ∨
   literal_eval (value q) = inr OtherException → is_Ok r = false).
Proof.
  intros Hf Ht r. subst r. unfold _get_value_as_type. rewrite Hf.
  assert (type q = None ∨ type q = Some "") as [-> | ->].
  { destruct (type q) as [[|c s]|]; [by right|done|by left]. }
  - split; [|split].
    + by intros v ->.
    + by intros [-> | ->].
    + by intros [-> | ->].
  - simpl. split; [|split].
    + by intros v ->.
    + by intros [-> | ->].
    + by intros [-> | ->].
Qed.

End query_value.

Lemma get_value_as_type_failure_witness :
  let reject : option string → value + QueryFilter.raised :=
    λ _, inr QueryFilter.ValueError in
  let raw : option string → value := λ o, VStr (default "" o) in
  let q :=
    QueryFilter.mkQuery (Some "id") None (Some "forty-two") (Some "integer") in
  let func : Wrappers.M value :=
    λ w, (QueryFilter._get_value_as_type reject reject reject reject reject
            reject raw None q, w) in
  let w := Wrappers.mkWorld (Wrappers.mkResponse 200 "" None) [] in
  Wrappers.wsme_client_view
    (Wrappers.wrap_wsme_controller_exception func "c0ffee" w)
    = Some (Wrappers.OBFUSCATED_MSG "c0ffee", 500).
Proof.
  intros reject raw q func w.
  exact (proj2 (get_value_as_type_failure reject reject reject reject reject
                  reject raw None q _ eq_refl) value func "c0ffee" w w
           eq_refl).
Defined.

Lemma get_value_as_type_untyped_witness :
  let reject : option string → value + QueryFilter.raised :=
    λ _, inr QueryFilter.ValueError in
  let raw : option string → value := λ o, VStr (default "" o) in
  let q := QueryFilter.mkQuery (Some "name") None (Some "sensor1") (Some "") in
  QueryFilter._get_value_as_type reject reject reject reject reject reject
    raw (Some "") q = Ok (VStr "sensor1").
Proof.
  intros reject raw q.
  apply (get_value_as_type_untyped reject reject reject reject reject reject
           raw (Some "") q eq_refl eq_refl).
  by left.
Defined.

(** ** Dicts of attributes *)

Lemma foldr_insert_lookup {B} (f : string → option B) (l : list string)
    (k : string) :
  foldr (λ c (m : gmap string B),
           match f c with
           | Some v => <[c := v]> m
           | None => m
           end) ∅ l !! k
  = if bool_decide (k ∈ l) then f k else None.
Proof.
  induction l as [|c l IH]; simpl; [done|].
  destruct (decide (k = c)) as [->|Hne].
  - rewrite bool_decide_eq_true_2 by left.
    destruct (f c) as [v|] eqn:Hfc; [by rewrite lookup_insert_eq|].
    rewrite IH. by destruct (bool_decide _).
  - assert (bool_decide (k ∈ c :: l) = bool_decide (k ∈ l)) as ->.
    { apply bool_decide_ext. rewrite elem_of_cons. tauto. }
    destruct (f c) as [v|]; [|done]. by rewrite lookup_insert_ne.
Qed.

(** X23.  The dict of a [Query] has, of the attributes asked for, those
    that are set, each with its value.  [as_dict] always has the key
    ['op'], whose value is never empty: it is ['eq'] for a query whose
    operator was never set, or set to the empty string. *)
Theorem query_as_dict (q : QueryFilter.Query) :
  (∀ keys k,
     (∀ x, x ∈ keys → x ∈ ["field"; "op"; "type"; "value"]) →
     QueryFilter.as_dict_from_keys q keys !! k
       = if bool_decide (k ∈ keys) then QueryFilter.query_getattr q k
         else None) ∧
  QueryFilter.as_dict q !! "op" = Some (QueryFilter.get_op q) ∧
  QueryFilter.get_op q ≠ "" ∧
  (∀ v, QueryFilter.get_op (QueryFilter.set_op v q)
        = match v with
          | Some o => if String.eqb o "" then "eq" else o
          | None => "eq"
          end) ∧
  QueryFilter.as_dict q !! "field" = QueryFilter.field q ∧
  QueryFilter.as_dict q !! "type" = QueryFilter.type q ∧
  QueryFilter.as_dict q !! "value" = QueryFilter.value q ∧
  dom (QueryFilter.as_dict q) ⊆ {[ "field"; "op"; "type"; "value" ]}.
Proof.
  assert (∀ keys k,
            QueryFilter.as_dict_from_keys q keys !! k
            = if bool_decide (k ∈ keys) then QueryFilter.query_getattr q k
              else None) as Hlook.
  { intros keys k. apply foldr_insert_lookup. }
  split; [by intros keys k _|].
  unfold QueryFilter.as_dict.
  split; [by rewrite Hlook|]. split.
  { unfold QueryFilter.get_op. destruct (QueryFilter._op q) as [o|]; [|done].
    by destruct (String.eqb_spec o "") as [->|Hne]. }
  split; [done|].
  split; [by rewrite Hlook|]. split; [by rewrite Hlook|].
  split; [by rewrite Hlook|].
  intros k [v Hk]%elem_of_dom. rewrite Hlook in Hk.
  case_bool_decide as Hin; [|done]. set_solver.
Qed.

(** X24.  [IoTBase.as_dict] lists every column with its value, and
    nothing else; [update] with the dict of a row turns any other loaded
    row into that row, leaving no stray attribute on the instance. *)
Theorem model_as_dict_round_trip (d d' : Device) :
  (∀ k, Models.as_dict d !! k = column k d) ∧
  dom (Models.as_dict d) = list_to_set columns ∧
  update (Models.as_dict d) (loaded d') = loaded d.
Proof.
  assert (∀ k, Models.as_dict d !! k = column k d) as Hlook.
  { intros k. unfold Models.as_dict. rewrite foldr_insert_lookup.
    case_bool_decide as Hk; [done|]. symmetry. apply column_None.
    unfold is_column. by apply bool_decide_eq_false. }
  assert (∀ k, k ∈ columns → is_Some (column k d)) as Hsome.
  { intros k Hk. unfold columns in Hk.
    repeat (apply elem_of_cons in Hk as [->|Hk]; [by eexists|]).
    by apply elem_of_nil in Hk. }
  split; [done|]. split.
  - apply set_eq. intros k. rewrite elem_of_dom, Hlook, elem_of_list_to_set.
    split; [|by apply Hsome].
    intros [v Hv]. destruct (decide (k ∈ columns)) as [|Hno]; [done|].
    rewrite column_None in Hv; [done|].
    unfold is_column. by apply bool_decide_eq_false.
  - assert (update_row (Models.as_dict d) d' = d) as Hrow.
    { unfold update_row, pick. rewrite !Hlook. by destruct d. }
    assert (filter (λ kv : string * value, is_column kv.1 = false)
              (Models.as_dict d) = ∅) as Hattrs.
    { apply map_eq. intros k. rewrite lookup_empty.
      apply map_lookup_filter_None. right. intros v Hv. simpl.
      rewrite Hlook in Hv. destruct (is_column k) eqn:Hk; [done|].
      by rewrite column_None in Hv. }
    unfold update, loaded. simpl. rewrite Hrow, Hattrs.
    by rewrite (left_id_L ∅ (∪)).
Qed.

(** ** JsonEncodedType *)



(** ** Listings of columns *)

(** X26.  For columns of the table, [get_deviceinfo_list] answers with
    the rows of [get_device_list] for the same arguments, each cut down
    to the columns asked for, in the order asked for; without [columns]
    it is the column [id].  It fails where [get_device_list] fails, with
    the same exception, and besides with a [TypeError] for an empty list
    of columns. *)
Theorem get_deviceinfo_list_projection (columns : option (list string))
    (filters : option (gmap string value)) (limit : option nat)
    (marker : option Device) (sort_key sort_dir : option string)
    (tbl : table) :
  let cs := default ["id"] columns in
  let info :=
    get_deviceinfo_list columns filters limit marker sort_key sort_dir tbl in
  let rows := get_device_list filters limit marker sort_key sort_dir tbl in
  (cs ≠ [] → (∀ c, c ∈ cs → is_column c = true) →
     match rows with
     | Ok rows =>
         info = Some (Ok ((λ d : Device, (λ c, col c d) <$> cs) <$> rows))
     | Raise e => info = Some (Raise e)
     end) ∧
  (cs = [] → ∃ text, info = Some (Raise (PyExc "TypeError" text))) ∧
  (columns = None →
     match rows with
     | Ok rows => info = Some (Ok ((λ d : Device, [id d]) <$> rows))
     | Raise e => info = Some (Raise e)
     end).
Proof.
  intros cs info rows.
  assert (cs ≠ [] → (∀ c, c ∈ cs → is_column c = true) →
          match rows with
          | Ok rows =>
              info
              = Some (Ok ((λ d : Device, (λ c, col c d) <$> cs) <$> rows))
          | Raise e => info = Some (Raise e)
          end) as Hcols.
  { subst info rows. unfold get_deviceinfo_list. fold cs.
    intros Hne Hall.
    assert (forallb is_column cs = true) as ->.
    { apply forallb_forall. intros c Hc. apply Hall.
      by apply list_elem_of_In. }
    simpl. destruct cs as [|c cs']; [done|].
    unfold get_device_list.
    destruct (_add_devices_filters tbl filters) as [query|e]; [|done].
    simpl. by destruct (_paginate_query _ _ _ _ query). }
  split; [done|]. split.
  - subst info. unfold get_deviceinfo_list. fold cs. intros ->. simpl.
    by eexists.
  - intros ->. apply Hcols; [done|].
    intros c Hc. apply list_elem_of_singleton in Hc as ->. done.
Qed.

(** ** refresh *)

(** X27.  [refresh] never returns, on any storage engine: it starts by
    loading the object again with [get_by_uuid], and the conversion of
    the loaded row raises before a field is compared. *)
Theorem refresh_never_returns (S : Type) (dbapi : Api.Connection S)
    (self : Objects.Device) (st : S) :
  is_Ok (Objects.refresh self st) = false ∧
  (∀ u d, Objects.getattr self "uuid" = Ok u →
          Api.get_device_by_uuid u st = Ok d →
          Objects.refresh self st
            = Raise (PyExc "AttributeError" "image_id")).
Proof.
  unfold Objects.refresh, Objects.get_by_uuid. split.
  - destruct (Objects.getattr self "uuid") as [u|e]; [|done]. simpl.
    by destruct (Api.get_device_by_uuid u st).
  - intros u d -> Hd. simpl. by rewrite Hd.
Qed.

(** ** Primary keys given by the caller *)

(** X28.  A mapping that carries a primary key already in use makes
    [create_device] raise [DeviceAlreadyExists] for the uuid of the new
    device, whether or not any stored device has that uuid: the message
    names a uuid that may well be free.  Nothing is stored. *)
Theorem create_device_duplicate_id (values : gmap string value)
    (gen : string) (now : Z) (tbl : table) (z : Z) :
  values !! "id" = Some (VInt z) → id_taken (VInt z) tbl = true →
  let given := default VNone (values !! "uuid") in
  let u := if truthy given then given else VStr gen in
  create_device values gen now tbl = Raise (mkDeviceAlreadyExists u) ∧
  table_after (create_device values gen now tbl) tbl = tbl.
Proof.
  intros Hid Htaken given u.
  assert (create_device values gen now tbl
          = Raise (mkDeviceAlreadyExists u)) as Hr.
  { unfold create_device. fold given.
    set (values' := if truthy given then values
                    else <["uuid" := VStr gen]> values).
    assert (values' !! "id" = Some (VInt z)) as Hid'.
    { unfold values'. destruct (truthy given); [done|].
      by rewrite lookup_insert_ne. }
    assert (id (row (update values' (loaded blank))) = VInt z) as Hrow.
    { simpl. unfold pick. by rewrite Hid'. }
    assert (insert (row (update values' (loaded blank))) now tbl
            = Raise DBDuplicateEntry) as ->.
    { unfold insert, new_key. rewrite Hrow. unfold given_key.
      rewrite Htaken. simpl. by rewrite Htaken. }
    rewrite bool_decide_eq_true_2 by done. do 2 f_equal.
    apply (create_device_row_uuid values gen). }
  split; [done|]. by rewrite Hr.
Qed.

Lemma create_device_duplicate_id_witness :
  uuid_taken (VStr "7d2f0c1e-5a4b-4c3d-9e8f-001122334455")
    [device_a; device_b] = false ∧
  create_device
    {[ "id" := VInt 1;
       "uuid" := VStr "7d2f0c1e-5a4b-4c3d-9e8f-001122334455" ]}
    "unused" 300 [device_a; device_b]
  = Raise (mkDeviceAlreadyExists
             (VStr "7d2f0c1e-5a4b-4c3d-9e8f-001122334455")).
Proof.
  split; [reflexivity|].
  assert (({[ "id" := VInt 1;
              "uuid" := VStr "7d2f0c1e-5a4b-4c3d-9e8f-001122334455" ]}
             : gmap string value) !! "id" = Some (VInt 1)) as Hid
    by reflexivity.
  exact (proj1 (create_device_duplicate_id _ "unused" 300
                  [device_a; device_b] 1 Hid eq_refl)).
Defined.

(** X29.  An update that rewrites the primary key of a device to the key
    of another stored device is refused by the database, and
    [update_device] lets the error through as it is: what is raised is
    no [IoTException], so a controller wrapper answers it with status
    500.  The table is unchanged. *)
Theorem update_device_id_in_use (device_id : string)
    (values : gmap string value) (now : Z) (tbl : table)
    (ref other : Device) (z : Z) :
  consistent tbl → "uuid" ∉ dom values →
  add_identity_filter tbl device_id = Ok [ref] →
  values !! "id" = Some (VInt z) →
  other ∈ tbl → id other = VInt z → other ≠ ref →
  update_device device_id values now tbl = Raise DBDuplicateEntry ∧
  raised_class (update_device device_id values now tbl) = None ∧
  Wrappers.http_error_code_of DBDuplicateEntry = 500 ∧
  table_after (update_device device_id values now tbl) tbl = tbl.
Proof.
  intros Hc Hno Hq Hid Hother Hoid Hne.
  assert (ref ∈ tbl) as Href.
  { apply (add_identity_filter_elem _ _ _ _ Hq). left. }
  assert (id ref ≠ VInt z) as Hrz.
  { intros Heq. apply Hne. destruct Hc as (_ & Hids & _).
    apply (NoDup_fmap_elem_inj id tbl); [done..|]. congruence. }
  assert (update_device device_id values now tbl = Raise DBDuplicateEntry)
    as Hr.
  { unfold update_device. rewrite bool_decide_eq_false_2 by done.
    destruct (_do_update_device_found device_id values now tbl ref Hq)
      as [extra ->].
    assert (id (update_row values ref) = VInt z) as Hnew.
    { simpl. unfold pick. by rewrite Hid. }
    unfold flush. rewrite bool_decide_eq_false_2 by congruence.
    rewrite Hnew.
    assert (id_taken (VInt z) (filter (λ r, id r ≠ id ref) tbl) = true)
      as ->.
    { destruct (id_taken _ _) eqn:Ht; [done|].
      pose proof (proj1 (id_taken_false _ _) Ht other) as Hfalse.
      destruct Hfalse; [|done].
      apply list_elem_of_filter. split; [congruence|done]. }
    done. }
  rewrite Hr. done.
Qed.

Lemma update_device_id_in_use_witness :
  update_device "2" {[ "id" := VInt 1 ]} 200 [device_a; device_b]
  = Raise DBDuplicateEntry.
Proof.
  assert (({[ "id" := VInt 1 ]} : gmap string value) !! "id"
          = Some (VInt 1)) as Hid by reflexivity.
  assert ("uuid" ∉ dom ({[ "id" := VInt 1 ]} : gmap string value)) as Hno.
  { apply (bool_decide_unpack _). by vm_compute. }
  assert (device_a ∈ [device_a; device_b]) as Hin by left.
  assert (device_a ≠ device_b) as Hne by discriminate.
  exact (proj1 (update_device_id_in_use "2" {[ "id" := VInt 1 ]} 200
                  [device_a; device_b] device_b device_a 1 consistent_a_b
                  Hno eq_refl Hid Hin eq_refl Hne)).
Defined.
